(** * GData Documents query: composition of the query URI

    A shallow embedding of [gdata/services/documents/gdata-documents-query.c]
    (libgdata): the private data of a [GDataDocumentsQuery], its setters and
    accessors, the GObject property interface, and the class's override of
    [get_query_uri], which extends the URI under construction with the
    parameters of the Google Documents service.

    C strings are [string]s, a nullable [gchar *] is an [option string]
    ([None] is [NULL]), a [GList *] is a [list] ([nil] is [NULL]) and a
    [gboolean] is a [bool] (GLib restricts the type to [TRUE] and [FALSE]).
    A C string holds no NUL byte; what the model gives for a [string] that
    holds one has no counterpart in the C code.  The [GString] under
    construction and the [params_started] flag, which the C code updates in
    place, are threaded through explicitly. *)

From Stdlib Require Import Bool Ascii String List NArith Lia.
Import ListNotations.
Local Open Scope bool_scope.
Local Open Scope N_scope.
Local Open Scope string_scope.

(* ================================================================= *)
(** ** Strings *)

Module Str.

(** Every character of [s] satisfies [p]. *)
Fixpoint all (p : ascii -> bool) (s : string) : bool :=
  match s with
  | EmptyString => true
  | String c s' => p c && all p s'
  end.

(** [needle] occurs somewhere in [hay]. *)
Fixpoint occurs (needle hay : string) : bool :=
  prefix needle hay ||
  match hay with
  | EmptyString => false
  | String _ hay' => occurs needle hay'
  end.

(** The first [n] characters of a string. *)
Fixpoint take (n : nat) (s : string) : string :=
  match n, s with
  | S n', String c s' => String c (take n' s')
  | _, _ => EmptyString
  end.

(** The part of [s] before the first character satisfying [p]. *)
Fixpoint before (p : ascii -> bool) (s : string) : string :=
  match s with
  | EmptyString => EmptyString
  | String c s' => if p c then EmptyString else String c (before p s')
  end.

(** The part of [s] after the first character satisfying [p]. *)
Fixpoint after (p : ascii -> bool) (s : string) : string :=
  match s with
  | EmptyString => EmptyString
  | String c s' => if p c then s' else after p s'
  end.

(** The pieces of [s] between the characters satisfying [p]. *)
Fixpoint split (p : ascii -> bool) (s : string) : list string :=
  match s with
  | EmptyString => [EmptyString]
  | String c s' =>
      if p c then EmptyString :: split p s'
      else match split p s' with
           | piece :: pieces => String c piece :: pieces
           | [] => [String c EmptyString]
           end
  end.

End Str.

(* ================================================================= *)
(** ** GLib: escaping a string into a [GString]

    GLib is a library the query code links against.  The routine the code
    calls, [g_string_append_uri_escaped], is modelled after GLib's
    implementation: every byte is percent-encoded except the unreserved
    characters of RFC 3986, the characters of [reserved_chars_allowed], and,
    when [allow_utf8] is set, the bytes of a well-formed multi-byte UTF-8
    character, which are copied as they are. *)

Module GLib.
Local Open Scope N_scope.

Definition gboolean := bool.
Definition GString := string.
Definition gunichar := N.

(** [NULL]-terminated lists of characters: [strchr] as a membership test. *)
Fixpoint strchr (s : string) (c : ascii) : bool :=
  match s with
  | EmptyString => false
  | String x s' => Ascii.eqb x c || strchr s' c
  end.

Definition g_ascii_isalnum (c : ascii) : bool :=
  let n := N_of_ascii c in
  ((48 <=? n) && (n <=? 57)) || ((65 <=? n) && (n <=? 90)) || ((97 <=? n) && (n <=? 122)).

Definition is_valid (c : ascii) (reserved_chars_allowed : option string) : bool :=
  g_ascii_isalnum c || Ascii.eqb c "-" || Ascii.eqb c "." || Ascii.eqb c "_" || Ascii.eqb c "~"
  || match reserved_chars_allowed with
     | Some r => strchr r c
     | None => false
     end.

(** [hex[n]] for the table ["0123456789ABCDEF"]. *)
Definition hex (n : N) : ascii :=
  if n <? 10 then ascii_of_N (48 + n) else ascii_of_N (55 + n).

(** The table [g_utf8_skip], indexed by the leading byte. *)
Definition g_utf8_skip (b : N) : nat :=
  if b <? 0xC0 then 1
  else if b <? 0xE0 then 2
  else if b <? 0xF0 then 3
  else if b <? 0xF8 then 4
  else if b <? 0xFC then 5
  else if b <? 0xFE then 6
  else 1.

(** The loop over the [n] continuation bytes of a multi-byte sequence;
    [None] stands for the malformed and partial results. *)
Fixpoint utf8_continuation (n : nat) (wc : gunichar) (p : string) : option gunichar :=
  match n with
  | O => Some wc
  | S n' =>
      match p with
      | EmptyString => None
      | String ch p' =>
          let b := N_of_ascii ch in
          if N.land b 0xC0 =? 0x80
          then utf8_continuation n' (N.lor (N.shiftl wc 6) (N.land b 0x3F)) p'
          else None
      end
  end.

Definition utf8_sequence (len : nat) (wc min_code : gunichar) (rest : string) : option gunichar :=
  match utf8_continuation (pred len) wc rest with
  | Some wc' => if wc' <? min_code then None else Some wc'
  | None => None
  end.

Definition g_utf8_get_char_extended (p : string) : option gunichar :=
  match p with
  | EmptyString => Some 0
  | String c rest =>
      let wc := N_of_ascii c in
      if wc <? 0x80 then Some wc
      else if wc <? 0xC0 then None
      else if wc <? 0xE0 then utf8_sequence 2 (N.land wc 0x1F) (N.shiftl 1 7) rest
      else if wc <? 0xF0 then utf8_sequence 3 (N.land wc 0x0F) (N.shiftl 1 11) rest
      else if wc <? 0xF8 then utf8_sequence 4 (N.land wc 0x07) (N.shiftl 1 16) rest
      else if wc <? 0xFC then utf8_sequence 5 (N.land wc 0x03) (N.shiftl 1 21) rest
      else if wc <? 0xFE then utf8_sequence 6 (N.land wc 0x01) (N.shiftl 1 26) rest
      else None
  end.

Definition UNICODE_VALID (ch : gunichar) : bool :=
  (ch <? 0x110000) && negb (N.land ch 0xFFFFF800 =? 0xD800).

Definition g_utf8_get_char_validated (p : string) : option gunichar :=
  match g_utf8_get_char_extended p with
  | Some wc => if UNICODE_VALID wc then Some wc else None
  | None => None
  end.

(** A character was decoded, and it is not the terminating nul. *)
Definition gunichar_ok (r : option gunichar) : bool :=
  match r with
  | Some wc => 0 <? wc
  | None => false
  end.

(** The encoder's loop.  The C loop advances its pointer by [len] after it
    has copied the [len] bytes of a UTF-8 character; here [pending] counts
    the bytes of that character which are still to be copied. *)
Fixpoint uri_encoder (pending : nat) (reserved_chars_allowed : option string)
    (allow_utf8 : gboolean) (p : string) : string :=
  match p with
  | EmptyString => EmptyString
  | String c rest =>
      match pending with
      | S k => String c (uri_encoder k reserved_chars_allowed allow_utf8 rest)
      | O =>
          let b := N_of_ascii c in
          if allow_utf8 && (0x80 <=? b) && gunichar_ok (g_utf8_get_char_validated p)
          then String c (uri_encoder (pred (g_utf8_skip b)) reserved_chars_allowed allow_utf8 rest)
          else if is_valid c reserved_chars_allowed
          then String c (uri_encoder 0 reserved_chars_allowed allow_utf8 rest)
          else String "%" (String (hex (N.shiftr b 4)) (String (hex (N.land b 0xF))
                 (uri_encoder 0 reserved_chars_allowed allow_utf8 rest)))
      end
  end.

Definition g_string_append (str : GString) (val : string) : GString := str ++ val.

Definition g_string_append_c (str : GString) (c : ascii) : GString := str ++ String c "".

Definition g_string_append_uri_escaped (str : GString) (unescaped : string)
    (reserved_chars_allowed : option string) (allow_utf8 : gboolean) : GString :=
  str ++ uri_encoder 0 reserved_chars_allowed allow_utf8 unescaped.

End GLib.
Import GLib.

(* ================================================================= *)
(** ** The e-mail address object and the parent class *)

(** A [GDataGDEmailAddress] ([gd/gdata-gd-email-address.h]). *)
Record GDataGDEmailAddress := {
  address : string;
  relation_type : option string;
  label : option string;
  is_primary : gboolean
}.

(** Modelled from the spec: the constructor [gdata_gd_email_address_new] of
    [gd/gdata-gd-email-address.c], which is not among the sources.  It takes
    the address, the relation tag, the display name and the primary flag, and
    fails ([None], the C function's [NULL]) when the address is empty or
    absent; otherwise it is a pure value construction. *)
Definition gdata_gd_email_address_new (address : option string)
    (relation_type label : option string) (is_primary : gboolean)
    : option GDataGDEmailAddress :=
  match address with
  | None => None
  | Some EmptyString => None
  | Some a => Some {| address := a; relation_type := relation_type;
                      label := label; is_primary := is_primary |}
  end.

(** Modelled from the spec: the accessor [gdata_gd_email_address_get_address]
    of the same file; it reads the address of a constructed object. *)
Definition gdata_gd_email_address_get_address (self : GDataGDEmailAddress) : string :=
  address self.

(** What [GDataDocumentsQuery] uses of its parent class [GDataQuery]
    ([gdata-query.c], not among the sources): the accessor of the entry ID
    and the parent's implementation of the virtual function [get_query_uri],
    which receives the feed URI, the [GString] under construction and the
    [params_started] flag, and leaves the two latter updated. *)
Class GDataQueryClass (GDataQuery : Type) := {
  gdata_query_get_entry_id : GDataQuery -> option string;
  parent_class_get_query_uri :
    GDataQuery -> string -> GString -> gboolean -> GString * gboolean
}.

(** The parent's implementation only appends to the [GString] (the spec's
    "generic-parameter append step"). *)
Definition parent_appends (GDataQuery : Type) `{GDataQueryClass GDataQuery} : Prop :=
  forall (q : GDataQuery) (feed_uri : string) (s : GString) (started : gboolean),
    exists t, fst (parent_class_get_query_uri q feed_uri s started) = s ++ t.

(* ================================================================= *)
(** ** The documents query *)

Record GDataDocumentsQueryPrivate := {
  show_deleted : gboolean;
  show_folders : gboolean;
  exact_title : gboolean;
  folder_id : option string;
  title : option string;
  collaborator_addresses : list GDataGDEmailAddress;
  reader_addresses : list GDataGDEmailAddress
}.

Inductive PROP :=
| PROP_SHOW_DELETED
| PROP_SHOW_FOLDERS
| PROP_EXACT_TITLE
| PROP_FOLDER_ID
| PROP_TITLE.

(** The numbering of the [enum]: the first property is 1. *)
Definition prop_of_id (property_id : N) : option PROP :=
  match property_id with
  | 1 => Some PROP_SHOW_DELETED
  | 2 => Some PROP_SHOW_FOLDERS
  | 3 => Some PROP_EXACT_TITLE
  | 4 => Some PROP_FOLDER_ID
  | 5 => Some PROP_TITLE
  | _ => None
  end%N.

(** The two kinds of [GValue] the properties of the class hold. *)
Inductive GValue :=
| G_TYPE_BOOLEAN (v : gboolean)
| G_TYPE_STRING (v : option string).

Definition g_value_get_boolean (value : GValue) : gboolean :=
  match value with
  | G_TYPE_BOOLEAN v => v
  | G_TYPE_STRING _ => false
  end.

Definition g_value_get_string (value : GValue) : option string :=
  match value with
  | G_TYPE_STRING v => v
  | G_TYPE_BOOLEAN _ => None
  end.

(** The outcome of a [void] function guarded by [g_return_if_fail]: the
    function ran ([G_OK]), or a check failed, a critical warning was logged
    and the function returned at once ([G_CRITICAL]). *)
Inductive g_return := G_OK | G_CRITICAL.

Section DocumentsQuery.

Context {GDataQuery : Type} `{GDataQueryClass GDataQuery}.

(** The instance: the parent's part and the private data. *)
Record GDataDocumentsQuery := {
  parent : GDataQuery;
  priv : GDataDocumentsQueryPrivate
}.

(** Instance memory is zero-filled: every flag [FALSE], every pointer [NULL]. *)
Definition gdata_documents_query_init (parent : GDataQuery) : GDataDocumentsQuery :=
  {| parent := parent;
     priv := {| show_deleted := false; show_folders := false; exact_title := false;
                folder_id := None; title := None;
                collaborator_addresses := []; reader_addresses := [] |} |}.

Definition with_priv (self : GDataDocumentsQuery) (p : GDataDocumentsQueryPrivate) :=
  {| parent := parent self; priv := p |}.

(** *** Accessors and setters.

    The type check [GDATA_IS_DOCUMENTS_QUERY (self)] holds of every value of
    the record type; [g_object_notify] only signals the change to listeners
    and leaves the instance as it is. *)

Definition gdata_documents_query_show_deleted (self : GDataDocumentsQuery) : gboolean :=
  show_deleted (priv self).

Definition gdata_documents_query_set_show_deleted (self : GDataDocumentsQuery)
    (show_deleted' : gboolean) : GDataDocumentsQuery :=
  let p := priv self in
  with_priv self
    {| show_deleted := show_deleted'; show_folders := show_folders p;
       exact_title := exact_title p; folder_id := folder_id p; title := title p;
       collaborator_addresses := collaborator_addresses p;
       reader_addresses := reader_addresses p |}.

Definition gdata_documents_query_show_folders (self : GDataDocumentsQuery) : gboolean :=
  show_folders (priv self).

Definition gdata_documents_query_set_show_folders (self : GDataDocumentsQuery)
    (show_folders' : gboolean) : GDataDocumentsQuery :=
  let p := priv self in
  with_priv self
    {| show_deleted := show_deleted p; show_folders := show_folders';
       exact_title := exact_title p; folder_id := folder_id p; title := title p;
       collaborator_addresses := collaborator_addresses p;
       reader_addresses := reader_addresses p |}.

Definition gdata_documents_query_get_folder_id (self : GDataDocumentsQuery) : option string :=
  folder_id (priv self).

(** [g_strdup] copies a string and maps [NULL] to [NULL]. *)
Definition g_strdup (str : option string) : option string := str.

Definition gdata_documents_query_set_folder_id (self : GDataDocumentsQuery)
    (folder_id' : option string) : GDataDocumentsQuery :=
  let p := priv self in
  with_priv self
    {| show_deleted := show_deleted p; show_folders := show_folders p;
       exact_title := exact_title p; folder_id := g_strdup folder_id'; title := title p;
       collaborator_addresses := collaborator_addresses p;
       reader_addresses := reader_addresses p |}.

Definition gdata_documents_query_get_title (self : GDataDocumentsQuery) : option string :=
  title (priv self).

Definition gdata_documents_query_get_exact_title (self : GDataDocumentsQuery) : gboolean :=
  exact_title (priv self).

Definition gdata_documents_query_set_title (self : GDataDocumentsQuery)
    (title' : option string) (exact_title' : gboolean) : GDataDocumentsQuery :=
  let p := priv self in
  with_priv self
    {| show_deleted := show_deleted p; show_folders := show_folders p;
       exact_title := exact_title'; folder_id := folder_id p; title := g_strdup title';
       collaborator_addresses := collaborator_addresses p;
       reader_addresses := reader_addresses p |}.

Definition gdata_documents_query_get_collaborator_addresses (self : GDataDocumentsQuery)
    : list GDataGDEmailAddress :=
  collaborator_addresses (priv self).

Definition gdata_documents_query_get_reader_addresses (self : GDataDocumentsQuery)
    : list GDataGDEmailAddress :=
  reader_addresses (priv self).

(** The check [email_address != NULL && *email_address != '\0']. *)
Definition email_address_given (email_address : option string) : bool :=
  match email_address with
  | None => false
  | Some EmptyString => false
  | Some _ => true
  end.

(** [g_list_append] adds one element at the end of the list. *)
Definition g_list_append {A : Type} (l : list A) (data : A) : list A := (l ++ [data])%list.

(** The constructor is called after the check it repeats, so that it
    cannot fail there (lemma [address_new_after_check]); the model reports
    that case as a failed check. *)
Definition gdata_documents_query_add_reader (self : GDataDocumentsQuery)
    (email_address : option string) : GDataDocumentsQuery * g_return :=
  if negb (email_address_given email_address) then (self, G_CRITICAL)
  else
    match gdata_gd_email_address_new email_address (Some "reader") None false with
    | None => (self, G_CRITICAL)
    | Some address =>
        let p := priv self in
        (with_priv self
           {| show_deleted := show_deleted p; show_folders := show_folders p;
              exact_title := exact_title p; folder_id := folder_id p; title := title p;
              collaborator_addresses := collaborator_addresses p;
              reader_addresses := g_list_append (reader_addresses p) address |},
         G_OK)
    end.

Definition gdata_documents_query_add_collaborator (self : GDataDocumentsQuery)
    (email_address : option string) : GDataDocumentsQuery * g_return :=
  if negb (email_address_given email_address) then (self, G_CRITICAL)
  else
    match gdata_gd_email_address_new email_address (Some "collaborator") None false with
    | None => (self, G_CRITICAL)
    | Some address =>
        let p := priv self in
        (with_priv self
           {| show_deleted := show_deleted p; show_folders := show_folders p;
              exact_title := exact_title p; folder_id := folder_id p; title := title p;
              collaborator_addresses := g_list_append (collaborator_addresses p) address;
              reader_addresses := reader_addresses p |},
         G_OK)
    end.

(** *** The GObject property interface.  An unknown property ID only
    produces a warning. *)

Definition gdata_documents_query_get_property (object : GDataDocumentsQuery)
    (property_id : N) : option GValue :=
  match prop_of_id property_id with
  | Some PROP_SHOW_DELETED => Some (G_TYPE_BOOLEAN (show_deleted (priv object)))
  | Some PROP_SHOW_FOLDERS => Some (G_TYPE_BOOLEAN (show_folders (priv object)))
  | Some PROP_FOLDER_ID => Some (G_TYPE_STRING (folder_id (priv object)))
  | Some PROP_EXACT_TITLE => Some (G_TYPE_BOOLEAN (exact_title (priv object)))
  | Some PROP_TITLE => Some (G_TYPE_STRING (title (priv object)))
  | None => None
  end.

Definition gdata_documents_query_set_property (object : GDataDocumentsQuery)
    (property_id : N) (value : GValue) : GDataDocumentsQuery :=
  match prop_of_id property_id with
  | Some PROP_SHOW_DELETED =>
      gdata_documents_query_set_show_deleted object (g_value_get_boolean value)
  | Some PROP_SHOW_FOLDERS =>
      gdata_documents_query_set_show_folders object (g_value_get_boolean value)
  | Some PROP_FOLDER_ID =>
      gdata_documents_query_set_folder_id object (g_value_get_string value)
  | Some PROP_EXACT_TITLE =>
      let p := priv object in
      with_priv object
        {| show_deleted := show_deleted p; show_folders := show_folders p;
           exact_title := g_value_get_boolean value; folder_id := folder_id p;
           title := title p;
           collaborator_addresses := collaborator_addresses p;
           reader_addresses := reader_addresses p |}
  | Some PROP_TITLE =>
      gdata_documents_query_set_title object (g_value_get_string value) true
  | None => object
  end.

(** *** The composition of the query URI.

    [get_query_uri] works on the instance, the [GString] it extends and the
    [params_started] flag it updates; the three make up the state of a call. *)

Record uri_call := {
  self : GDataDocumentsQuery;
  query_uri : GString;
  params_started : gboolean
}.

Definition g_append (val : string) (c : uri_call) : uri_call :=
  {| self := self c;
     query_uri := g_string_append (query_uri c) val;
     params_started := params_started c |}.

Definition g_append_c (ch : ascii) (c : uri_call) : uri_call :=
  {| self := self c;
     query_uri := g_string_append_c (query_uri c) ch;
     params_started := params_started c |}.

(** Every call of the function passes [NULL] for the reserved characters
    allowed and [TRUE] for [allow_utf8]. *)
Definition g_append_uri_escaped (unescaped : string) (c : uri_call) : uri_call :=
  {| self := self c;
     query_uri := g_string_append_uri_escaped (query_uri c) unescaped None true;
     params_started := params_started c |}.

(** The macro [APPEND_SEP]. *)
Definition APPEND_SEP (c : uri_call) : uri_call :=
  {| self := self c;
     query_uri := g_string_append_c (query_uri c)
                    (if Bool.eqb (params_started c) false then "?" else "&")%char;
     params_started := true |}.

(** Chaining up to the parent class. *)
Definition chain_up (feed_uri : string) (c : uri_call) : uri_call :=
  let '(s, started) :=
    parent_class_get_query_uri (parent (self c)) feed_uri (query_uri c) (params_started c) in
  {| self := self c; query_uri := s; params_started := started |}.

(** The [for] loop over the cells after the first one. *)
Fixpoint append_next_addresses (l : list GDataGDEmailAddress) (c : uri_call) : uri_call :=
  match l with
  | [] => c
  | a :: next =>
      append_next_addresses next
        (g_append_uri_escaped (gdata_gd_email_address_get_address a) (g_append_c ";" c))
  end.

Notation "c ;> f" := (f c) (at level 45, left associativity, only parsing).

Definition get_query_uri (feed_uri : string) (c : uri_call) : uri_call :=
  let priv := priv (self c) in
  let entry_id := gdata_query_get_entry_id (parent (self c)) in
  let c :=
    match entry_id, folder_id priv with
    | None, Some folder_id => c ;> g_append "/folder%3A" ;> g_append_uri_escaped folder_id
    | _, _ => c
    end in
  let c := chain_up feed_uri c in
  match entry_id with
  | Some _ => c
  | None =>
      let c :=
        match collaborator_addresses priv with
        | [] => c
        | collaborator_address :: next =>
            c ;> APPEND_SEP ;> g_append "writer="
              ;> g_append_uri_escaped (gdata_gd_email_address_get_address collaborator_address)
              ;> append_next_addresses next
        end in
      let c :=
        match reader_addresses priv with
        | [] => c
        | reader_address :: next =>
            c ;> APPEND_SEP ;> g_append "reader="
              ;> g_append_uri_escaped (gdata_gd_email_address_get_address reader_address)
              ;> append_next_addresses next
        end in
      let c :=
        match title priv with
        | Some title =>
            let c := c ;> APPEND_SEP ;> g_append "title=" ;> g_append_uri_escaped title in
            if Bool.eqb (exact_title priv) true then g_append "&title-exact=true" c else c
        | None => c
        end in
      let c := APPEND_SEP c in
      let c :=
        if Bool.eqb (show_deleted priv) true
        then g_append "showdeleted=true" c
        else g_append "showdeleted=false" c in
      if Bool.eqb (show_folders priv) true
      then g_append "&showfolders=true" c
      else g_append "&showfolders=false" c
  end.

(** One call of [get_query_uri] on a [GString] holding [uri], seen from the
    caller: the string and the flag it leaves. *)
Definition compose_uri (q : GDataDocumentsQuery) (feed_uri : string) (uri : GString)
    (started : gboolean) : GString * gboolean :=
  let c := get_query_uri feed_uri {| self := q; query_uri := uri; params_started := started |} in
  (query_uri c, params_started c).

End DocumentsQuery.

Arguments GDataDocumentsQuery GDataQuery : clear implicits.
Arguments uri_call GDataQuery : clear implicits.

(* ================================================================= *)
(** ** A parent to run the composition on *)

(** Modelled from the spec: a stand-in for the base query of [gdata-query.c],
    which is not among the sources.  It has the entry ID and the free-text
    search term; its step appends the parameter [q] for the search term,
    after the separator the flag calls for, when no entry ID is set.  What
    the parent writes for an entry ID is not specified: the stand-in writes
    nothing then. *)
Module BaseQuery.

Record t := { entry_id : option string; q : option string }.

Definition get_query_uri (self : t) (feed_uri : string) (query_uri : GString)
    (params_started : gboolean) : GString * gboolean :=
  match entry_id self, q self with
  | None, Some term =>
      (g_string_append_uri_escaped
         (g_string_append
            (g_string_append_c query_uri (if params_started then "&" else "?")%char) "q=")
         term None true,
       true)
  | _, _ => (query_uri, params_started)
  end.

#[global] Instance class : GDataQueryClass t :=
  {| gdata_query_get_entry_id := entry_id;
     parent_class_get_query_uri := get_query_uri |}.

Definition collection : t := {| entry_id := None; q := None |}.
Definition search (term : string) : t := {| entry_id := None; q := Some term |}.
Definition entry (id : string) : t := {| entry_id := Some id; q := None |}.

End BaseQuery.

Definition feed : string := "https://docs.google.com/feeds/documents/private/full".

(* ================================================================= *)
(** ** The wire format, for stating the properties *)

(** The escaped form of a value: what [g_string_append_uri_escaped] adds to
    the [GString], with [NULL] and [TRUE] for its last two arguments. *)
Definition uri_escaped (s : string) : string := g_string_append_uri_escaped "" s None true.

(** The characters an escaped value is made of: unreserved characters, the
    percent sign and the bytes of multi-byte UTF-8 characters. *)
Definition uri_safe (c : ascii) : bool :=
  is_valid c None || Ascii.eqb c "%" || (0x80 <=? N_of_ascii c)%N.

Definition high_byte (c : ascii) : bool := (0x80 <=? N_of_ascii c)%N.

Definition is_question_mark (c : ascii) : bool := Ascii.eqb c "?".
Definition is_separator (c : ascii) : bool := Ascii.eqb c "?" || Ascii.eqb c "&".
Definition is_equals (c : ascii) : bool := Ascii.eqb c "=".

(** The characters of a parameter's name and of its value. *)
Definition key_char (c : ascii) : bool := negb (is_separator c) && negb (is_equals c).
Definition value_char (c : ascii) : bool := negb (is_separator c).

(** Reading a query string back: the text is cut at every ['?'] and ['&'],
    what precedes the first of them is not a parameter, and every other
    piece is a name and a value around its first ['=']. *)
Definition key_value (s : string) : string * string :=
  (Str.before is_equals s, Str.after is_equals s).

Definition query_params (s : string) : list (string * string) :=
  map key_value (tl (Str.split is_separator s)).

(** The parameters of a given name. *)
Definition params_named (name : string) (l : list (string * string)) : list (string * string) :=
  filter (fun kv => String.eqb (fst kv) name) l.

Definition separator (started : gboolean) : string := if started then "&" else "?".

Definition bool_text (b : gboolean) : string := if b then "true" else "false".

(** The addresses of a list, each one escaped, joined with semicolons. *)
Definition address_list (l : list GDataGDEmailAddress) : string :=
  String.concat ";" (map (fun a => uri_escaped (address a)) l).

(** What the loop over the cells after the first one writes. *)
Fixpoint next_addresses (l : list GDataGDEmailAddress) : string :=
  match l with
  | [] => EmptyString
  | a :: l' => ";" ++ uri_escaped (address a) ++ next_addresses l'
  end.

Definition nonempty {A : Type} (l : list A) : bool :=
  match l with
  | [] => false
  | _ :: _ => true
  end.

(** The parameter of a list of addresses: none for the empty list. *)
Definition list_param (name : string) (l : list GDataGDEmailAddress)
    : list (string * string) :=
  match l with
  | [] => []
  | _ :: _ => [(name, address_list l)]
  end.

Definition title_params (p : GDataDocumentsQueryPrivate) : list (string * string) :=
  match title p with
  | Some t => ("title", uri_escaped t) ::
              (if exact_title p then [("title-exact", "true")] else [])
  | None => []
  end.

Definition flag_params (p : GDataDocumentsQueryPrivate) : list (string * string) :=
  [("showdeleted", bool_text (show_deleted p));
   ("showfolders", bool_text (show_folders p))].

(** The parameters of the documents query, in the order of the wire format. *)
Definition documents_params (p : GDataDocumentsQueryPrivate) : list (string * string) :=
  (list_param "writer" (collaborator_addresses p) ++
   list_param "reader" (reader_addresses p) ++
   title_params p ++ flag_params p)%list.

(** A list of parameters written out: the first one after ['?'] or ['&'] as
    the flag has it, the others after ['&']. *)
Fixpoint params_text (started : gboolean) (l : list (string * string)) : string :=
  match l with
  | [] => EmptyString
  | (k, v) :: l' => separator started ++ k ++ "=" ++ v ++ params_text true l'
  end.

(** The path segment of a folder. *)
Definition folder_segment (folder_id : string) : string :=
  "/folder%3A" ++ uri_escaped folder_id.

(** [segment] occurs in [uri] ahead of every ['?']. *)
Definition before_any_question_mark (segment uri : string) : bool :=
  Str.occurs segment (Str.before is_question_mark uri).

(** The state of a call with the [GString] and the flag replaced. *)
Definition with_uri {Q : Type} (c : uri_call Q) (s : GString) (started : gboolean)
    : uri_call Q :=
  {| self := self c; query_uri := s; params_started := started |}.

(** The state of a call once the path of a folder has been added: the
    first step of the composition. *)
Definition path_step {Q : Type} `{GDataQueryClass Q} (c : uri_call Q) : uri_call Q :=
  match gdata_query_get_entry_id (parent (self c)), folder_id (priv (self c)) with
  | None, Some f => with_uri c (query_uri c ++ folder_segment f) (params_started c)
  | _, _ => c
  end.

(** A parameter that reads back as it was written. *)
Definition plain_param (kv : string * string) : bool :=
  Str.all key_char (fst kv) && Str.all value_char (snd kv).

(** The parameters that filter the documents: all but the two flags. *)
Definition filter_params (p : GDataDocumentsQueryPrivate) : list (string * string) :=
  (list_param "writer" (collaborator_addresses p) ++
   list_param "reader" (reader_addresses p) ++
   title_params p)%list.

(** The text of the parameter of a list of addresses. *)
Definition address_param_text (started : gboolean) (name : string)
    (l : list GDataGDEmailAddress) : string :=
  match l with
  | [] => EmptyString
  | _ :: _ => separator started ++ name ++ "=" ++ address_list l
  end.

(** The text of the title's parameter and of its suffix. *)
Definition title_text (started : gboolean) (p : GDataDocumentsQueryPrivate) : string :=
  match title p with
  | Some t => separator started ++ "title=" ++ uri_escaped t ++
              (if exact_title p then "&title-exact=true" else "")
  | None => EmptyString
  end.

(** The text of the two flags. *)
Definition flags_text (started : gboolean) (p : GDataDocumentsQueryPrivate) : string :=
  separator started ++ "showdeleted=" ++ bool_text (show_deleted p) ++
  "&showfolders=" ++ bool_text (show_folders p).

(** All that the documents query writes after its parent's step. *)
Definition documents_text (started : gboolean) (p : GDataDocumentsQueryPrivate) : string :=
  params_text started (documents_params p).

(* ================================================================= *)
(** ** Sample queries *)

Module Sample.

(** A query with every field set, on a given parent. *)
Definition full (base : BaseQuery.t) : GDataDocumentsQuery BaseQuery.t :=
  let q := gdata_documents_query_init base in
  let q := gdata_documents_query_set_folder_id q (Some "abc") in
  let q := gdata_documents_query_set_title q (Some "Annual Report") true in
  let q := gdata_documents_query_set_show_deleted q true in
  let q := fst (gdata_documents_query_add_collaborator q (Some "w@z.org")) in
  let q := fst (gdata_documents_query_add_reader q (Some "a@x.com")) in
  fst (gdata_documents_query_add_reader q (Some "b@y.com")).

(** A query with only the folder set. *)
Definition in_folder (base : BaseQuery.t) : GDataDocumentsQuery BaseQuery.t :=
  gdata_documents_query_set_folder_id (gdata_documents_query_init base) (Some "abc").

(** A query whose title is to match exactly. *)
Definition exact (base : BaseQuery.t) : GDataDocumentsQuery BaseQuery.t :=
  gdata_documents_query_set_title (gdata_documents_query_init base) (Some "Annual Report") true.

Definition call (q : GDataDocumentsQuery BaseQuery.t) (uri : GString) (started : gboolean)
    : uri_call BaseQuery.t :=
  {| self := q; query_uri := uri; params_started := started |}.

End Sample.

(* ================================================================= *)
(** ** The class: the properties [class_init] installs *)

Inductive GParamFlags := G_PARAM_READWRITE | G_PARAM_STATIC_STRINGS.

Inductive GParamSpec :=
| g_param_spec_boolean (name nick blurb : string) (default_value : gboolean)
    (flags : list GParamFlags)
| g_param_spec_string (name nick blurb : string) (default_value : option string)
    (flags : list GParamFlags).

(** The value of the [enum] constant of a property. *)
Definition id_of_prop (p : PROP) : N :=
  match p with
  | PROP_SHOW_DELETED => 1
  | PROP_SHOW_FOLDERS => 2
  | PROP_EXACT_TITLE => 3
  | PROP_FOLDER_ID => 4
  | PROP_TITLE => 5
  end%N.

(** The calls of [g_object_class_install_property], in their order: the
    property ID and the specification installed under it. *)
Definition gdata_documents_query_class_init : list (N * GParamSpec) :=
  [ (id_of_prop PROP_SHOW_DELETED,
     g_param_spec_boolean "show-deleted" "Show deleted?"
       "A shortcut to request all documents that have been deleted."
       false [G_PARAM_READWRITE; G_PARAM_STATIC_STRINGS]);
    (id_of_prop PROP_SHOW_FOLDERS,
     g_param_spec_boolean "show-folders" "Show folders?"
       "Specifies if the request also returns folders."
       false [G_PARAM_READWRITE; G_PARAM_STATIC_STRINGS]);
    (id_of_prop PROP_EXACT_TITLE,
     g_param_spec_boolean "exact-title" "Exact title?"
       "Specifies whether the query should search for an exact title match."
       false [G_PARAM_READWRITE; G_PARAM_STATIC_STRINGS]);
    (id_of_prop PROP_FOLDER_ID,
     g_param_spec_string "folder-id" "Folder ID"
       "Specifies the ID of the folder in which to search."
       None [G_PARAM_READWRITE; G_PARAM_STATIC_STRINGS]);
    (id_of_prop PROP_TITLE,
     g_param_spec_string "title" "Title"
       "A title (or title fragment) to be searched for."
       None [G_PARAM_READWRITE; G_PARAM_STATIC_STRINGS]) ].

(** The default of a specification, as a [GValue] of its type. *)
Definition g_param_spec_get_default_value (pspec : GParamSpec) : GValue :=
  match pspec with
  | g_param_spec_boolean _ _ _ default_value _ => G_TYPE_BOOLEAN default_value
  | g_param_spec_string _ _ _ default_value _ => G_TYPE_STRING default_value
  end.

(** A value is of the type of a specification: what GObject checks before
    it hands the value to [set_property]. *)
Definition g_value_type_compatible (pspec : GParamSpec) (value : GValue) : bool :=
  match pspec, value with
  | g_param_spec_boolean _ _ _ _ _, G_TYPE_BOOLEAN _ => true
  | g_param_spec_string _ _ _ _ _, G_TYPE_STRING _ => true
  | _, _ => false
  end.

(** The specification installed under a property ID. *)
Fixpoint g_object_class_find_property_by_id (installed : list (N * GParamSpec))
    (property_id : N) : option GParamSpec :=
  match installed with
  | [] => None
  | (id, pspec) :: rest =>
      if (id =? property_id)%N then Some pspec
      else g_object_class_find_property_by_id rest property_id
  end.

(* ================================================================= *)
(** ** Sequences of calls on a query *)

(** The calls of the public interface that change a query. *)
Inductive setter_call :=
| call_set_show_deleted (show_deleted : gboolean)
| call_set_show_folders (show_folders : gboolean)
| call_set_folder_id (folder_id : option string)
| call_set_title (title : option string) (exact_title : gboolean)
| call_add_reader (email_address : option string)
| call_add_collaborator (email_address : option string)
| call_set_property (property_id : N) (value : GValue).

Definition perform {Q : Type} (q : GDataDocumentsQuery Q) (call : setter_call)
    : GDataDocumentsQuery Q :=
  match call with
  | call_set_show_deleted b => gdata_documents_query_set_show_deleted q b
  | call_set_show_folders b => gdata_documents_query_set_show_folders q b
  | call_set_folder_id v => gdata_documents_query_set_folder_id q v
  | call_set_title v e => gdata_documents_query_set_title q v e
  | call_add_reader a => fst (gdata_documents_query_add_reader q a)
  | call_add_collaborator a => fst (gdata_documents_query_add_collaborator q a)
  | call_set_property id v => gdata_documents_query_set_property q id v
  end.

(** The calls of a list, one after the other. *)
Definition perform_all {Q : Type} (q : GDataDocumentsQuery Q) (calls : list setter_call)
    : GDataDocumentsQuery Q :=
  fold_left perform calls q.

(** The fields of the private data. *)
Inductive field :=
| FIELD_show_deleted
| FIELD_show_folders
| FIELD_exact_title
| FIELD_folder_id
| FIELD_title
| FIELD_collaborator_addresses
| FIELD_reader_addresses.

Definition field_eqb (f g : field) : bool :=
  match f, g with
  | FIELD_show_deleted, FIELD_show_deleted
  | FIELD_show_folders, FIELD_show_folders
  | FIELD_exact_title, FIELD_exact_title
  | FIELD_folder_id, FIELD_folder_id
  | FIELD_title, FIELD_title
  | FIELD_collaborator_addresses, FIELD_collaborator_addresses
  | FIELD_reader_addresses, FIELD_reader_addresses => true
  | _, _ => false
  end.

(** A field has the same value in two private data. *)
Definition kept (f : field) (p p' : GDataDocumentsQueryPrivate) : Prop :=
  match f with
  | FIELD_show_deleted => show_deleted p' = show_deleted p
  | FIELD_show_folders => show_folders p' = show_folders p
  | FIELD_exact_title => exact_title p' = exact_title p
  | FIELD_folder_id => folder_id p' = folder_id p
  | FIELD_title => title p' = title p
  | FIELD_collaborator_addresses => collaborator_addresses p' = collaborator_addresses p
  | FIELD_reader_addresses => reader_addresses p' = reader_addresses p
  end.

(** The fields the code of a call assigns. *)
Definition written (call : setter_call) : list field :=
  match call with
  | call_set_show_deleted _ => [FIELD_show_deleted]
  | call_set_show_folders _ => [FIELD_show_folders]
  | call_set_folder_id _ => [FIELD_folder_id]
  | call_set_title _ _ => [FIELD_title; FIELD_exact_title]
  | call_add_reader _ => [FIELD_reader_addresses]
  | call_add_collaborator _ => [FIELD_collaborator_addresses]
  | call_set_property property_id _ =>
      match prop_of_id property_id with
      | Some PROP_SHOW_DELETED => [FIELD_show_deleted]
      | Some PROP_SHOW_FOLDERS => [FIELD_show_folders]
      | Some PROP_EXACT_TITLE => [FIELD_exact_title]
      | Some PROP_FOLDER_ID => [FIELD_folder_id]
      | Some PROP_TITLE => [FIELD_title; FIELD_exact_title]
      | None => []
      end
  end.

(** No field of the first list is in the second. *)
Definition disjoint_fields (l1 l2 : list field) : bool :=
  forallb (fun f => negb (existsb (field_eqb f) l2)) l1.

(** Every field of the first list is in the second. *)
Definition covered_fields (l1 l2 : list field) : bool :=
  forallb (fun f => existsb (field_eqb f) l2) l1.

(** The calls that add to a list instead of assigning a value. *)
Definition appends_address (call : setter_call) : bool :=
  match call with
  | call_add_reader _ | call_add_collaborator _ => true
  | _ => false
  end.

(** The address object [add_reader] and [add_collaborator] build. *)
Definition new_address (relation : string) (email_address : string) : GDataGDEmailAddress :=
  {| address := email_address; relation_type := Some relation;
     label := None; is_primary := false |}.

(** An address object as the two functions build them: a non-empty
    address, the given relation, no label, not primary. *)
Definition built_address (relation : string) (a : GDataGDEmailAddress) : bool :=
  negb (String.eqb (address a) "") &&
  match relation_type a with
  | Some r => String.eqb r relation
  | None => false
  end &&
  match label a with
  | Some _ => false
  | None => true
  end &&
  negb (is_primary a).

Definition built_lists {Q : Type} (q : GDataDocumentsQuery Q) : bool :=
  forallb (built_address "collaborator") (collaborator_addresses (priv q)) &&
  forallb (built_address "reader") (reader_addresses (priv q)).

(** The strings of a list that pass the check of the two functions. *)
Definition given_addresses (l : list (option string)) : list string :=
  flat_map (fun a => match a with
                     | Some s => if email_address_given a then [s] else []
                     | None => []
                     end) l.

(* ================================================================= *)
(** ** Reading the values back *)

Definition is_semicolon (c : ascii) : bool := Ascii.eqb c ";".

(** The value of a hexadecimal digit. *)
Definition hex_value (c : ascii) : option N :=
  let n := N_of_ascii c in
  if (48 <=? n)%N && (n <=? 57)%N then Some (n - 48)%N
  else if (65 <=? n)%N && (n <=? 70)%N then Some (n - 55)%N
  else if (97 <=? n)%N && (n <=? 102)%N then Some (n - 87)%N
  else None.

(** Percent-decoding: [%XY] stands for the byte of hexadecimal value [XY],
    any other character for itself. *)
Fixpoint uri_unescaped (s : string) : string :=
  match s with
  | EmptyString => EmptyString
  | String c s1 =>
      if Ascii.eqb c "%" then
        match s1 with
        | String h s2 =>
            match s2 with
            | String l rest =>
                match hex_value h, hex_value l with
                | Some a, Some b =>
                    String (ascii_of_N (16 * a + b)) (uri_unescaped rest)
                | _, _ => String c (uri_unescaped s1)
                end
            | EmptyString => String c (uri_unescaped s1)
            end
        | EmptyString => String c (uri_unescaped s1)
        end
      else String c (uri_unescaped s1)
  end.

(** The value of the first parameter of a given name. *)
Fixpoint param_value (name : string) (l : list (string * string)) : option string :=
  match l with
  | [] => None
  | (k, v) :: l' => if String.eqb k name then Some v else param_value name l'
  end.

(** The addresses of the parameter of a given name: its value cut at the
    semicolons, every piece decoded; none when the parameter is absent. *)
Definition param_addresses (name : string) (l : list (string * string)) : list string :=
  match param_value name l with
  | Some v => map uri_unescaped (Str.split is_semicolon v)
  | None => []
  end.

(** The names of the parameters, in the order of the wire format. *)
Definition wire_order : list string :=
  ["writer"; "reader"; "title"; "title-exact"; "showdeleted"; "showfolders"].

(** The parameters a query has a value for. *)
Definition param_present (p : GDataDocumentsQueryPrivate) (name : string) : bool :=
  if String.eqb name "writer" then nonempty (collaborator_addresses p)
  else if String.eqb name "reader" then nonempty (reader_addresses p)
  else if String.eqb name "title" then
    match title p with Some _ => true | None => false end
  else if String.eqb name "title-exact" then
    match title p with Some _ => exact_title p | None => false end
  else true.

(** The characters of the text the documents query writes. *)
Definition query_char (c : ascii) : bool :=
  uri_safe c || is_separator c || is_equals c || is_semicolon c.

(** The characters below 0x80 of the text the documents query writes:
    unreserved characters, the percent sign and the four delimiters. *)
Definition ascii_query_char (c : ascii) : bool :=
  is_valid c None || Ascii.eqb c "%" || is_separator c || is_equals c || is_semicolon c.

(** A text made of characters below 0x80 that satisfy [p] and of
    well-formed multi-byte UTF-8 characters: a byte from 0x80 on either
    starts a character that [g_utf8_get_char_validated] accepts, or is one
    of the bytes that follow the start of such a character, of which
    [pending] are still to come. *)
Fixpoint utf8_text (p : ascii -> bool) (pending : nat) (s : string) : bool :=
  match s with
  | EmptyString => Nat.eqb pending 0
  | String c rest =>
      match pending with
      | S k => utf8_text p k rest
      | O =>
          if (0x80 <=? N_of_ascii c)%N
          then gunichar_ok (g_utf8_get_char_validated s)
               && utf8_text p (pred (g_utf8_skip (N_of_ascii c))) rest
          else p c && utf8_text p 0 rest
      end
  end.

(* ================================================================= *)
(** ** The mock proxy resolver of the tests ([tests/mock-proxy.c])

    GIO is modelled as far as the resolver uses it.  A [GCancellable] is an
    object whose flag is read when it is tested: the flags of the
    cancellables at the time of a call are a function of their addresses.
    A [NULL]-terminated array of strings is a list, [NULL] is [None]; the
    [GError] a call leaves in its last argument is returned with the
    result. *)

Module MockProxy.

(** A resolver has no data of its own: it is its [GObject], known by its
    address. *)
Record GDataMockProxyResolver := { parent_instance : N }.

Definition GCancellable := N.

Inductive GError := G_IO_ERROR_CANCELLED.

(** [g_cancellable_set_error_if_cancelled]: the error it sets, if it sets
    one; a [NULL] cancellable is never cancelled. *)
Definition g_cancellable_set_error_if_cancelled (cancelled : GCancellable -> bool)
    (cancellable : option GCancellable) : option GError :=
  match cancellable with
  | Some c => if cancelled c then Some G_IO_ERROR_CANCELLED else None
  | None => None
  end.

Definition gdata_mock_proxy_resolver_is_supported (resolver : GDataMockProxyResolver)
    : gboolean := true.

Definition gdata_mock_proxy_resolver_lookup (cancelled : GCancellable -> bool)
    (resolver : GDataMockProxyResolver) (uri : string)
    (cancellable : option GCancellable) : option (list string) * option GError :=
  match g_cancellable_set_error_if_cancelled cancelled cancellable with
  | Some error => (None, Some error)
  | None => (Some ["https://127.0.0.1:443"], None)
  end.

(** A [GTask]: its source object, its cancellable and what it was
    completed with, if it was: [g_task_return_error] refuses a [NULL]
    error and leaves the task as it is. *)
Inductive task_result :=
| pointer_result (proxies : list string)
| error_result (error : GError)
| never_returned.

Record GTask := {
  source_object : N;
  task_cancellable : option GCancellable;
  result : task_result
}.

(** A [GAsyncResult] is a task or an object of another kind. *)
Inductive GAsyncResult :=
| G_TASK (task : GTask)
| other_result.

(** The task whose completion the function schedules; the callback is
    called with it later, from the main loop. *)
Definition gdata_mock_proxy_resolver_lookup_async (cancelled : GCancellable -> bool)
    (resolver : GDataMockProxyResolver) (uri : string)
    (cancellable : option GCancellable) : GTask :=
  let '(proxies, error) :=
    gdata_mock_proxy_resolver_lookup cancelled resolver uri cancellable in
  {| source_object := parent_instance resolver;
     task_cancellable := cancellable;
     result := match proxies, error with
               | Some p, _ => pointer_result p
               | None, Some e => error_result e
               | None, None => never_returned
               end |}.

Definition g_task_is_valid (res : GAsyncResult) (source : N) : bool :=
  match res with
  | G_TASK task => (source_object task =? source)%N
  | other_result => false
  end.

(** [g_task_propagate_pointer]: a task checks its cancellable before it
    gives its result; a task that was never completed fails the function's
    check. *)
Definition g_task_propagate_pointer (cancelled : GCancellable -> bool) (task : GTask)
    : option (list string) * option GError :=
  match result task with
  | never_returned => (None, None)
  | completed =>
      match g_cancellable_set_error_if_cancelled cancelled (task_cancellable task) with
      | Some error => (None, Some error)
      | None =>
          match completed with
          | pointer_result p => (Some p, None)
          | error_result e => (None, Some e)
          | never_returned => (None, None)
          end
      end
  end.

(** A failed [g_return_val_if_fail] returns [NULL] and sets no error. *)
Definition gdata_mock_proxy_resolver_lookup_finish (cancelled : GCancellable -> bool)
    (resolver : GDataMockProxyResolver) (res : GAsyncResult)
    : option (list string) * option GError :=
  match res with
  | G_TASK task =>
      if g_task_is_valid res (parent_instance resolver)
      then g_task_propagate_pointer cancelled task
      else (None, None)
  | other_result => (None, None)
  end.

End MockProxy.

(* ================================================================= *)
(** ** The composition on the instance in memory

    [get_query_uri] receives a pointer to the instance: its code could
    write to the instance, and so could the parent's function, which it
    calls with the same pointer.  Here the memory a call works on (the
    instance, the [GString] and the flag) is the state of a state monad
    with primitives to read and to write each part, and the parent's
    function returns the parent's part of the instance as it leaves it. *)

Section InPlace.

Context {Q : Type}.
Variable entry_id_of : Q -> option string.
Variable parent_in_place : Q -> string -> GString -> gboolean -> Q * (GString * gboolean).

Definition run (A : Type) : Type := uri_call Q -> A * uri_call Q.

Definition ret {A : Type} (a : A) : run A := fun m => (a, m).

Definition bind {A B : Type} (x : run A) (k : A -> run B) : run B :=
  fun m => let '(a, m') := x m in k a m'.

Notation "x <- e ;; k" := (bind e (fun x => k))
  (at level 61, e at next level, right associativity).
Notation "e ;;; k" := (bind e (fun _ => k))
  (at level 61, right associativity).

(** Reading a field of the private data, and writing the private data. *)
Definition read_priv {A : Type} (field : GDataDocumentsQueryPrivate -> A) : run A :=
  fun m => (field (priv (self m)), m).

Definition write_priv (p : GDataDocumentsQueryPrivate) : run unit :=
  fun m => (tt, {| self := {| parent := parent (self m); priv := p |};
                   query_uri := query_uri m;
                   params_started := params_started m |}).

Definition read_entry_id : run (option string) :=
  fun m => (entry_id_of (parent (self m)), m).

Definition read_params_started : run gboolean :=
  fun m => (params_started m, m).

Definition write_params_started (started : gboolean) : run unit :=
  fun m => (tt, {| self := self m; query_uri := query_uri m; params_started := started |}).

Definition string_append (val : string) : run unit :=
  fun m => (tt, {| self := self m;
                   query_uri := g_string_append (query_uri m) val;
                   params_started := params_started m |}).

Definition string_append_c (ch : ascii) : run unit :=
  fun m => (tt, {| self := self m;
                   query_uri := g_string_append_c (query_uri m) ch;
                   params_started := params_started m |}).

Definition string_append_uri_escaped (unescaped : string) : run unit :=
  fun m => (tt, {| self := self m;
                   query_uri := g_string_append_uri_escaped (query_uri m) unescaped None true;
                   params_started := params_started m |}).

(** The macro [APPEND_SEP]. *)
Definition APPEND_SEP_in_place : run unit :=
  started <- read_params_started ;;
  string_append_c (if Bool.eqb started false then "?" else "&")%char ;;;
  write_params_started true.

(** Chaining up: the parent's function works on the parent's part of the
    instance, on the [GString] and on the flag. *)
Definition chain_up_in_place (feed_uri : string) : run unit :=
  fun m =>
    let '(base, (s, started)) :=
      parent_in_place (parent (self m)) feed_uri (query_uri m) (params_started m) in
    (tt, {| self := {| parent := base; priv := priv (self m) |};
            query_uri := s;
            params_started := started |}).

Fixpoint append_next_addresses_in_place (l : list GDataGDEmailAddress) : run unit :=
  match l with
  | [] => ret tt
  | a :: next =>
      string_append_c ";" ;;;
      string_append_uri_escaped (gdata_gd_email_address_get_address a) ;;;
      append_next_addresses_in_place next
  end.

Definition get_query_uri_in_place (feed_uri : string) : run unit :=
  entry_id <- read_entry_id ;;
  folder <- read_priv folder_id ;;
  match entry_id, folder with
  | None, Some folder_id =>
      string_append "/folder%3A" ;;; string_append_uri_escaped folder_id
  | _, _ => ret tt
  end ;;;
  chain_up_in_place feed_uri ;;;
  match entry_id with
  | Some _ => ret tt
  | None =>
      collaborators <- read_priv collaborator_addresses ;;
      match collaborators with
      | [] => ret tt
      | collaborator_address :: next =>
          APPEND_SEP_in_place ;;;
          string_append "writer=" ;;;
          string_append_uri_escaped
            (gdata_gd_email_address_get_address collaborator_address) ;;;
          append_next_addresses_in_place next
      end ;;;
      readers <- read_priv reader_addresses ;;
      match readers with
      | [] => ret tt
      | reader_address :: next =>
          APPEND_SEP_in_place ;;;
          string_append "reader=" ;;;
          string_append_uri_escaped (gdata_gd_email_address_get_address reader_address) ;;;
          append_next_addresses_in_place next
      end ;;;
      title' <- read_priv title ;;
      match title' with
      | Some title =>
          APPEND_SEP_in_place ;;;
          string_append "title=" ;;;
          string_append_uri_escaped title ;;;
          exact <- read_priv exact_title ;;
          if Bool.eqb exact true then string_append "&title-exact=true" else ret tt
      | None => ret tt
      end ;;;
      APPEND_SEP_in_place ;;;
      deleted <- read_priv show_deleted ;;
      (if Bool.eqb deleted true
       then string_append "showdeleted=true"
       else string_append "showdeleted=false") ;;;
      folders <- read_priv show_folders ;;
      if Bool.eqb folders true
      then string_append "&showfolders=true"
      else string_append "&showfolders=false"
  end.

(** [gdata_documents_query_set_title] on the instance in memory. *)
Definition gdata_documents_query_set_title_in_place (title' : option string)
    (exact_title' : gboolean) : run unit :=
  p <- read_priv (fun p => p) ;;
  write_priv
    {| show_deleted := show_deleted p; show_folders := show_folders p;
       exact_title := exact_title'; folder_id := folder_id p; title := g_strdup title';
       collaborator_addresses := collaborator_addresses p;
       reader_addresses := reader_addresses p |}.

(** The parent class as the other sections have it: what the parent's
    function leaves in the [GString] and in the flag. *)
Definition class_of_in_place : GDataQueryClass Q :=
  {| gdata_query_get_entry_id := entry_id_of;
     parent_class_get_query_uri :=
       fun base feed_uri s started => snd (parent_in_place base feed_uri s started) |}.

(** The parent's function leaves the parent's part of the instance as it
    found it (the spec's step takes the string and the flag only). *)
Definition parent_reads_only : Prop :=
  forall base feed_uri s started,
    fst (parent_in_place base feed_uri s started) = base.

End InPlace.

(** Modelled from the spec: the stand-in for the base query as a function
    on the instance in memory; it writes to the [GString] and to the flag
    only. *)
Definition base_query_in_place (base : BaseQuery.t) (feed_uri : string) (s : GString)
    (started : gboolean) : BaseQuery.t * (GString * gboolean) :=
  (base, BaseQuery.get_query_uri base feed_uri s started).

(* ================================================================= *)
(** ** Facts about strings *)

Module StrFacts.
Import Str.

Lemma app_nil_r (s : string) : s ++ "" = s.
Proof. induction s as [|c s IH]; simpl; [reflexivity | now rewrite IH]. Qed.

Lemma app_assoc (a b c : string) : (a ++ b) ++ c = a ++ (b ++ c).
Proof. induction a as [|x a IH]; simpl; [reflexivity | now rewrite IH]. Qed.

Lemma all_app p a b : all p (a ++ b) = all p a && all p b.
Proof.
  induction a as [|x a IH]; simpl; [reflexivity|].
  now rewrite IH, andb_assoc.
Qed.

Lemma all_impl (p q : ascii -> bool) s :
  (forall c, p c = true -> q c = true) -> all p s = true -> all q s = true.
Proof.
  intros Hpq. induction s as [|c s IH]; simpl; [reflexivity|].
  rewrite !andb_true_iff. intros [Hc Hs]. split; [now apply Hpq | now apply IH].
Qed.

Lemma prefix_app (a b : string) : prefix a (a ++ b) = true.
Proof.
  induction a as [|x a IH]; simpl; [now destruct b|].
  destruct (ascii_dec x x) as [_|N]; [exact IH | now elim N].
Qed.

Lemma occurs_prefix (n h : string) : prefix n h = true -> occurs n h = true.
Proof. destruct h; simpl; intros ->; reflexivity. Qed.

Lemma occurs_here (a b : string) : occurs a (a ++ b) = true.
Proof. apply occurs_prefix, prefix_app. Qed.

Lemma occurs_app_l (n a b : string) : occurs n b = true -> occurs n (a ++ b) = true.
Proof.
  intros H. induction a as [|x a IH]; simpl; [exact H|].
  rewrite IH. apply orb_true_r.
Qed.

Lemma before_app p a b :
  all (fun c => negb (p c)) a = true -> before p (a ++ b) = a ++ before p b.
Proof.
  induction a as [|x a IH]; simpl; [reflexivity|].
  rewrite andb_true_iff, negb_true_iff. intros [Hx Ha].
  now rewrite Hx, IH.
Qed.

End StrFacts.

(* ================================================================= *)
(** ** Facts about the escaping *)

Module GLibFacts.
Import Str StrFacts.

Ltac each_byte c := destruct c as [[] [] [] [] [] [] [] []].

Lemma continuation_byte_high (ch : ascii) :
  (N.land (N_of_ascii ch) 0xC0 =? 0x80)%N = true -> high_byte ch = true.
Proof. each_byte ch; vm_compute; intros E; solve [reflexivity | discriminate E]. Qed.

Lemma hex_high_safe (c : ascii) : uri_safe (hex (N.shiftr (N_of_ascii c) 4)) = true.
Proof. each_byte c; vm_compute; reflexivity. Qed.

Lemma hex_low_safe (c : ascii) : uri_safe (hex (N.land (N_of_ascii c) 0xF)) = true.
Proof. each_byte c; vm_compute; reflexivity. Qed.

Lemma utf8_continuation_high n : forall wc p r,
  utf8_continuation n wc p = Some r -> all high_byte (take n p) = true.
Proof.
  induction n as [|n IH]; intros wc p r; simpl; [reflexivity|].
  destruct p as [|ch p]; [discriminate|].
  destruct (N.land (N_of_ascii ch) 192 =? 128)%N eqn:E; [|discriminate].
  intros Hr. simpl. rewrite (continuation_byte_high ch E). simpl.
  exact (IH _ _ _ Hr).
Qed.

Lemma utf8_sequence_high len wc min_code rest r :
  utf8_sequence len wc min_code rest = Some r ->
  all high_byte (take (pred len) rest) = true.
Proof.
  unfold utf8_sequence.
  destruct (utf8_continuation (pred len) wc rest) eqn:E; [|discriminate].
  intros _. exact (utf8_continuation_high _ _ _ _ E).
Qed.

(** After the leading byte of a character that validates, the bytes the
    encoder still copies are bytes of that character. *)
Lemma validated_rest_high (c : ascii) (rest : string) :
  high_byte c = true ->
  gunichar_ok (g_utf8_get_char_validated (String c rest)) = true ->
  all high_byte (take (pred (g_utf8_skip (N_of_ascii c))) rest) = true.
Proof.
  unfold high_byte, g_utf8_get_char_validated, g_utf8_get_char_extended, g_utf8_skip.
  intros Hc.
  destruct (N_of_ascii c <? 128)%N eqn:E0.
  { apply N.ltb_lt in E0. apply N.leb_le in Hc. lia. }
  destruct (N_of_ascii c <? 192)%N; [discriminate|].
  destruct (N_of_ascii c <? 224)%N.
  { destruct (utf8_sequence 2 _ _ rest) eqn:E; [|discriminate].
    intros _. exact (utf8_sequence_high _ _ _ _ _ E). }
  destruct (N_of_ascii c <? 240)%N.
  { destruct (utf8_sequence 3 _ _ rest) eqn:E; [|discriminate].
    intros _. exact (utf8_sequence_high _ _ _ _ _ E). }
  destruct (N_of_ascii c <? 248)%N.
  { destruct (utf8_sequence 4 _ _ rest) eqn:E; [|discriminate].
    intros _. exact (utf8_sequence_high _ _ _ _ _ E). }
  destruct (N_of_ascii c <? 252)%N.
  { destruct (utf8_sequence 5 _ _ rest) eqn:E; [|discriminate].
    intros _. exact (utf8_sequence_high _ _ _ _ _ E). }
  destruct (N_of_ascii c <? 254)%N.
  { destruct (utf8_sequence 6 _ _ rest) eqn:E; [|discriminate].
    intros _. exact (utf8_sequence_high _ _ _ _ _ E). }
  discriminate.
Qed.

Lemma high_byte_safe c : high_byte c = true -> uri_safe c = true.
Proof. unfold uri_safe, high_byte. intros ->. apply orb_true_r. Qed.

Lemma uri_encoder_safe (p : string) : forall pending,
  all high_byte (take pending p) = true ->
  all uri_safe (uri_encoder pending None true p) = true.
Proof.
  induction p as [|c rest IH]; intros pending Hp; [reflexivity|].
  destruct pending as [|k].
  - cbn [uri_encoder]. cbv zeta.
    destruct (true && (128 <=? N_of_ascii c)%N
              && gunichar_ok (g_utf8_get_char_validated (String c rest))) eqn:E.
    + rewrite !andb_true_iff in E. destruct E as [[_ Hc] Hok].
      cbn [all]. rewrite (high_byte_safe c Hc). simpl.
      apply IH. exact (validated_rest_high c rest Hc Hok).
    + destruct (is_valid c None) eqn:Ev.
      * cbn [all]. unfold uri_safe at 1. rewrite Ev. simpl. now apply IH.
      * cbn [all]. rewrite hex_high_safe, hex_low_safe.
        replace (uri_safe "%") with true by reflexivity. simpl. now apply IH.
  - cbn [uri_encoder all]. simpl in Hp. apply andb_true_iff in Hp as [Hc Hk].
    rewrite (high_byte_safe c Hc). simpl. now apply IH.
Qed.

(** An escaped value has only safe characters. *)
Lemma uri_escaped_safe (s : string) : all uri_safe (uri_escaped s) = true.
Proof. unfold uri_escaped. simpl. now apply uri_encoder_safe. Qed.

Lemma safe_value_char c : uri_safe c = true -> value_char c = true.
Proof. each_byte c; vm_compute; intros E; solve [reflexivity | discriminate E]. Qed.

Lemma safe_not_question_mark c : uri_safe c = true -> negb (is_question_mark c) = true.
Proof. each_byte c; vm_compute; intros E; solve [reflexivity | discriminate E]. Qed.

Lemma uri_escaped_value (s : string) : all value_char (uri_escaped s) = true.
Proof. exact (all_impl _ _ _ safe_value_char (uri_escaped_safe s)). Qed.

Lemma uri_escaped_no_question_mark (s : string) :
  all (fun c => negb (is_question_mark c)) (uri_escaped s) = true.
Proof. exact (all_impl _ _ _ safe_not_question_mark (uri_escaped_safe s)). Qed.

End GLibFacts.

(* ================================================================= *)
(** ** Facts about query strings *)

Module QueryFacts.
Import Str StrFacts GLibFacts.

Lemma after_app p a b :
  all (fun c => negb (p c)) a = true -> after p (a ++ b) = after p b.
Proof.
  induction a as [|x a IH]; simpl; [reflexivity|].
  rewrite andb_true_iff, negb_true_iff. intros [Hx Ha].
  now rewrite Hx, IH.
Qed.

Lemma split_cons p s : exists piece pieces, split p s = piece :: pieces.
Proof.
  induction s as [|c s [piece [pieces IH]]]; simpl; [now eexists; eexists|].
  destruct (p c); [now eexists; eexists|].
  rewrite IH. now eexists; eexists.
Qed.

Lemma split_app p a r :
  all (fun c => negb (p c)) a = true ->
  split p (a ++ r) =
  match split p r with
  | piece :: pieces => (a ++ piece) :: pieces
  | [] => [a]
  end.
Proof.
  destruct (split_cons p r) as [piece [pieces E]]. rewrite E.
  induction a as [|x a IH]; simpl.
  - intros _. exact E.
  - rewrite andb_true_iff, negb_true_iff. intros [Hx Ha].
    now rewrite Hx, (IH Ha).
Qed.

Lemma key_is_value s : all key_char s = true -> all value_char s = true.
Proof.
  apply all_impl. intros c. unfold key_char. rewrite andb_true_iff. now intros [E _].
Qed.

Lemma key_no_equals s : all key_char s = true -> all (fun c => negb (is_equals c)) s = true.
Proof.
  apply all_impl. intros c. unfold key_char. rewrite andb_true_iff. now intros [_ E].
Qed.

Lemma key_value_param k v : all key_char k = true -> key_value (k ++ "=" ++ v) = (k, v).
Proof.
  intros Hk. unfold key_value.
  rewrite (before_app _ _ _ (key_no_equals k Hk)), (after_app _ _ _ (key_no_equals k Hk)).
  simpl. now rewrite app_nil_r.
Qed.

Lemma separator_char started :
  exists c, separator started = String c "" /\ is_separator c = true.
Proof. destruct started; eexists; split; reflexivity. Qed.

Lemma split_params_text l : forall started,
  forallb plain_param l = true ->
  split is_separator (params_text started l)
  = EmptyString :: map (fun kv => fst kv ++ "=" ++ snd kv) l.
Proof.
  induction l as [|[k v] l IH]; intros started Hl; [reflexivity|].
  simpl in Hl. apply andb_true_iff in Hl as [Hkv Hl].
  unfold plain_param in Hkv. simpl in Hkv. apply andb_true_iff in Hkv as [Hk Hv].
  cbn [params_text map fst snd].
  destruct (separator_char started) as [c [-> Hc]].
  cbn [String.append split]. rewrite Hc. f_equal.
  replace (k ++ String "=" (v ++ params_text true l))
    with ((k ++ String "=" v) ++ params_text true l)
    by (now rewrite app_assoc).
  rewrite (split_app is_separator (k ++ String "=" v) (params_text true l)).
  - rewrite (IH true Hl). now rewrite app_nil_r.
  - change (all value_char (k ++ String "=" v) = true).
    rewrite all_app. cbn [all]. now rewrite (key_is_value k Hk), Hv.
Qed.

(** Reading back what [params_text] wrote gives the parameters. *)
Lemma query_params_text started l :
  forallb plain_param l = true -> query_params (params_text started l) = l.
Proof.
  intros Hl. unfold query_params. rewrite (split_params_text l started Hl).
  cbn [tl]. induction l as [|[k v] l IH]; [reflexivity|].
  simpl in Hl. apply andb_true_iff in Hl as [Hkv Hl].
  unfold plain_param in Hkv. simpl in Hkv. apply andb_true_iff in Hkv as [Hk _].
  cbn [map fst snd]. rewrite (key_value_param k v Hk). f_equal. now apply IH.
Qed.

Lemma address_list_cons a l :
  address_list (a :: l) = uri_escaped (address a) ++ next_addresses l.
Proof.
  revert a. induction l as [|b l IH]; intros a.
  - unfold address_list. simpl. now rewrite app_nil_r.
  - change (address_list (a :: b :: l))
      with (uri_escaped (address a) ++ ";" ++ address_list (b :: l)).
    now rewrite IH.
Qed.

Lemma next_addresses_value l : all value_char (next_addresses l) = true.
Proof.
  induction l as [|a l IH]; [reflexivity|].
  cbn [next_addresses]. rewrite !all_app, IH, uri_escaped_value. reflexivity.
Qed.

Lemma address_list_value l : all value_char (address_list l) = true.
Proof.
  destruct l as [|a l]; [reflexivity|].
  now rewrite address_list_cons, all_app, uri_escaped_value, next_addresses_value.
Qed.

(** The parameters of the documents query read back as they are written. *)
Lemma documents_params_plain p : forallb plain_param (documents_params p) = true.
Proof.
  unfold documents_params. rewrite !forallb_app.
  apply andb_true_iff; split; [|apply andb_true_iff; split; [|apply andb_true_iff; split]].
  - destruct (collaborator_addresses p) as [|a l]; [reflexivity|].
    cbn [list_param forallb]. unfold plain_param. cbn [fst snd].
    now rewrite address_list_value.
  - destruct (reader_addresses p) as [|a l]; [reflexivity|].
    cbn [list_param forallb]. unfold plain_param. cbn [fst snd].
    now rewrite address_list_value.
  - unfold title_params. destruct (title p) as [t|]; [|reflexivity].
    cbn [forallb]. unfold plain_param at 1. cbn [fst snd].
    rewrite uri_escaped_value. now destruct (exact_title p).
  - unfold flag_params. now destruct (show_deleted p), (show_folders p).
Qed.

Lemma params_text_app l1 : forall started l2,
  params_text started (l1 ++ l2)
  = params_text started l1 ++ params_text (started || nonempty l1) l2.
Proof.
  destruct l1 as [|[k v] l1]; intros started l2.
  - simpl. now rewrite orb_false_r.
  - cbn [List.app params_text nonempty]. rewrite orb_true_r.
    rewrite !app_assoc. do 4 f_equal.
    clear k v. induction l1 as [|[k v] l1 IH]; [reflexivity|].
    cbn [List.app params_text]. rewrite !app_assoc. now rewrite IH.
Qed.

End QueryFacts.

(* ================================================================= *)
(** ** The composition, step by step *)

Section Composition.

Context {Q : Type} `{GDataQueryClass Q}.
Implicit Types (c : uri_call Q) (q : GDataDocumentsQuery Q).

Import Str StrFacts GLibFacts QueryFacts.

Lemma chain_up_self feed c : self (chain_up feed c) = self c.
Proof.
  unfold chain_up.
  now destruct (parent_class_get_query_uri (parent (self c)) feed (query_uri c)
                  (params_started c)).
Qed.

Lemma append_next_addresses_text l : forall c,
  append_next_addresses l c
  = with_uri c (query_uri c ++ next_addresses l) (params_started c).
Proof.
  induction l as [|a l IH]; intros c.
  - destruct c. unfold with_uri. simpl. now rewrite app_nil_r.
  - cbn [append_next_addresses]. rewrite IH.
    unfold with_uri, g_append_uri_escaped, g_append_c, g_string_append_uri_escaped,
      g_string_append_c, gdata_gd_email_address_get_address, uri_escaped.
    cbn [self query_uri params_started next_addresses]. f_equal.
    rewrite !app_assoc. reflexivity.
Qed.

(** With an entry ID, the function does what its parent does and no more. *)
Lemma get_query_uri_entry feed c id :
  gdata_query_get_entry_id (parent (self c)) = Some id ->
  get_query_uri feed c = chain_up feed c.
Proof. intros E. unfold get_query_uri. now rewrite E. Qed.

(** What one group of the function writes for a list of addresses. *)
Lemma address_group (name k : string) l c :
  name = k ++ "=" ->
  match l with
  | [] => c
  | first :: next =>
      append_next_addresses next
        (g_append_uri_escaped (gdata_gd_email_address_get_address first)
           (g_append name (APPEND_SEP c)))
  end
  = with_uri c (query_uri c ++ params_text (params_started c) (list_param k l))
      (params_started c || nonempty l).
Proof.
  intros ->. destruct l as [|first next].
  - destruct c. unfold with_uri. simpl. now rewrite app_nil_r, orb_false_r.
  - rewrite append_next_addresses_text.
    cbn [list_param params_text nonempty]. rewrite address_list_cons, orb_true_r.
    unfold with_uri, g_append_uri_escaped, g_append, APPEND_SEP, g_string_append,
      g_string_append_uri_escaped, g_string_append_c, gdata_gd_email_address_get_address,
      uri_escaped.
    cbn [self query_uri params_started]. f_equal.
    destruct (params_started c); cbn [Bool.eqb separator];
      rewrite !app_assoc; cbn [String.append]; now rewrite !app_nil_r.
Qed.

(** What the function writes for the title. *)
Lemma title_group (p : GDataDocumentsQueryPrivate) c :
  match title p with
  | Some title =>
      let c' := g_append_uri_escaped title (g_append "title=" (APPEND_SEP c)) in
      if Bool.eqb (exact_title p) true then g_append "&title-exact=true" c' else c'
  | None => c
  end
  = with_uri c (query_uri c ++ params_text (params_started c) (title_params p))
      (params_started c || nonempty (title_params p)).
Proof.
  unfold title_params. destruct (title p) as [t|].
  - unfold with_uri, g_append_uri_escaped, g_append, APPEND_SEP, g_string_append,
      g_string_append_uri_escaped, g_string_append_c, uri_escaped.
    destruct (exact_title p), (params_started c);
      cbn [Bool.eqb self query_uri params_started params_text separator nonempty orb];
      f_equal; rewrite !app_assoc; cbn [String.append]; now rewrite ?app_nil_r.
  - destruct c. unfold with_uri. simpl. now rewrite app_nil_r, orb_false_r.
Qed.

(** What the function writes for the two flags. *)
Lemma flag_group (p : GDataDocumentsQueryPrivate) c :
  (let c1 := APPEND_SEP c in
   let c2 := if Bool.eqb (show_deleted p) true
             then g_append "showdeleted=true" c1
             else g_append "showdeleted=false" c1 in
   if Bool.eqb (show_folders p) true
   then g_append "&showfolders=true" c2
   else g_append "&showfolders=false" c2)
  = with_uri c (query_uri c ++ params_text (params_started c) (flag_params p)) true.
Proof.
  unfold flag_params, with_uri, g_append, APPEND_SEP, g_string_append, g_string_append_c.
  destruct (show_deleted p), (show_folders p), (params_started c);
    cbn [Bool.eqb self query_uri params_started params_text separator bool_text];
    f_equal; rewrite !app_assoc; reflexivity.
Qed.

Lemma path_step_code c :
  match gdata_query_get_entry_id (parent (self c)), folder_id (priv (self c)) with
  | None, Some folder_id => g_append_uri_escaped folder_id (g_append "/folder%3A" c)
  | _, _ => c
  end = path_step c.
Proof.
  unfold path_step.
  destruct (gdata_query_get_entry_id (parent (self c))); [reflexivity|].
  destruct (folder_id (priv (self c))) as [f|]; [|reflexivity].
  unfold with_uri, g_append_uri_escaped, g_append, g_string_append,
    g_string_append_uri_escaped, folder_segment, uri_escaped.
  cbn [self query_uri params_started]. f_equal.
  rewrite !app_assoc. reflexivity.
Qed.

(** Without an entry ID: the path of the folder, then the parent's step,
    then the parameters of the documents query, in their order. *)
Lemma get_query_uri_collection feed c :
  gdata_query_get_entry_id (parent (self c)) = None ->
  get_query_uri feed c
  = with_uri c
      (query_uri (chain_up feed (path_step c))
       ++ params_text (params_started (chain_up feed (path_step c)))
            (documents_params (priv (self c))))
      true.
Proof.
  intros E. unfold get_query_uri. rewrite <- path_step_code. rewrite E. cbv zeta.
  set (c0 := match folder_id (priv (self c)) with
             | Some folder_id => g_append_uri_escaped folder_id (g_append "/folder%3A" c)
             | None => c
             end).
  assert (Hself : self (chain_up feed c0) = self c).
  { rewrite chain_up_self. subst c0. now destruct (folder_id (priv (self c))). }
  set (c1 := chain_up feed c0) in *.
  rewrite (address_group "writer=" "writer" _ c1 eq_refl).
  rewrite (address_group "reader=" "reader" _ _ eq_refl).
  rewrite (title_group (priv (self c))).
  rewrite (flag_group (priv (self c))).
  unfold with_uri. cbn [self query_uri params_started]. rewrite Hself. f_equal.
  unfold documents_params. rewrite !params_text_app, !app_assoc.
  assert (Hn : forall k l, nonempty (list_param k l) = nonempty l) by (now intros k [|]).
  now rewrite !Hn.
Qed.

Lemma get_query_uri_self feed c : self (get_query_uri feed c) = self c.
Proof.
  destruct (gdata_query_get_entry_id (parent (self c))) as [id|] eqn:E.
  - rewrite (get_query_uri_entry feed c id E). apply chain_up_self.
  - now rewrite (get_query_uri_collection feed c E).
Qed.

(** The text the documents query adds after its parent's step reads back
    as its parameters. *)
Lemma documents_params_read_back started (p : GDataDocumentsQueryPrivate) :
  query_params (params_text started (documents_params p)) = documents_params p.
Proof. apply query_params_text, documents_params_plain. Qed.

End Composition.

(* ================================================================= *)
(** ** Properties of the composition and of the setters *)

Section Properties.

Context {Q : Type} `{GDataQueryClass Q}.
Implicit Types (c : uri_call Q) (q : GDataDocumentsQuery Q).

Import Str StrFacts GLibFacts QueryFacts.

Lemma documents_params_split (p : GDataDocumentsQueryPrivate) :
  documents_params p = (filter_params p ++ flag_params p)%list.
Proof. unfold documents_params, filter_params. now rewrite <- !List.app_assoc. Qed.

Lemma params_text_flags started (p : GDataDocumentsQueryPrivate) :
  params_text started (flag_params p) = flags_text started p.
Proof.
  unfold flag_params, flags_text.
  now destruct started, (show_deleted p), (show_folders p).
Qed.

Lemma params_text_title started (p : GDataDocumentsQueryPrivate) :
  params_text started (title_params p) = title_text started p.
Proof.
  unfold title_params, title_text. destruct (title p) as [t|]; [|reflexivity].
  destruct (exact_title p), started; cbn [params_text separator String.append];
    now rewrite ?app_nil_r.
Qed.

Lemma params_text_list started name l :
  params_text started (list_param name l) = address_param_text started name l.
Proof.
  destruct l as [|a l]; [reflexivity|].
  cbn [list_param params_text address_param_text]. now rewrite app_nil_r.
Qed.

Lemma nonempty_list_param name l : nonempty (list_param name l) = nonempty l.
Proof. now destruct l. Qed.

(** C1. When the entry ID is present, the function adds nothing of its own:
    its result is the result of its parent's step on the string it was given,
    to which no folder path was added (whatever the folder ID), and after
    which no parameter [writer], [reader], [title], [showdeleted] or
    [showfolders] is written. *)
Theorem entry_id_short_circuit feed c id :
  gdata_query_get_entry_id (parent (self c)) = Some id ->
  get_query_uri feed c = chain_up feed c /\
  (query_uri (get_query_uri feed c), params_started (get_query_uri feed c))
  = parent_class_get_query_uri (parent (self c)) feed (query_uri c) (params_started c).
Proof.
  intros E. rewrite (get_query_uri_entry feed c id E). split; [reflexivity|].
  unfold chain_up.
  now destruct (parent_class_get_query_uri (parent (self c)) feed (query_uri c)
                  (params_started c)).
Qed.

(** C2, as amended.  When the entry ID is absent, the text composed ends
    with the parameter [showdeleted], after ['?'] if nothing has started the
    parameters (neither the parent nor a list of addresses nor the title) and
    after ['&'] otherwise, followed by ['&'] and the parameter [showfolders];
    their values are [true] or [false] as the stored booleans are, whatever
    the other fields hold, and the flag is left set. *)
Theorem visibility_flags feed c :
  gdata_query_get_entry_id (parent (self c)) = None ->
  let p := priv (self c) in
  let c1 := chain_up feed (path_step c) in
  let started := params_started c1 || nonempty (filter_params p) in
  query_uri (get_query_uri feed c)
  = query_uri c1 ++ params_text (params_started c1) (filter_params p) ++
    separator started ++ "showdeleted=" ++ bool_text (show_deleted p) ++
    "&showfolders=" ++ bool_text (show_folders p) /\
  params_started (get_query_uri feed c) = true /\
  params_named "showdeleted" (query_params (documents_text (params_started c1) p))
  = [("showdeleted", bool_text (show_deleted p))] /\
  params_named "showfolders" (query_params (documents_text (params_started c1) p))
  = [("showfolders", bool_text (show_folders p))].
Proof.
  intros E p c1 started. rewrite (get_query_uri_collection feed c E).
  cbn [with_uri query_uri params_started]. fold c1 p.
  unfold documents_text. rewrite documents_params_read_back.
  repeat split.
  - rewrite documents_params_split, params_text_app, params_text_flags.
    reflexivity.
  - unfold documents_params, params_named. rewrite !filter_app.
    unfold list_param, title_params.
    destruct (collaborator_addresses p), (reader_addresses p), (title p), (exact_title p);
      reflexivity.
  - unfold documents_params, params_named. rewrite !filter_app.
    unfold list_param, title_params.
    destruct (collaborator_addresses p), (reader_addresses p), (title p), (exact_title p);
      reflexivity.
Qed.



(** C10. Setting the title through the property interface stores the flag
    [exact_title] as [TRUE], whatever it was and whatever the new title is;
    the direct call stores the value its caller passes. *)
Theorem title_property_sets_exact q (value : GValue) :
  gdata_documents_query_get_exact_title
    (gdata_documents_query_set_property q 5 value) = true /\
  gdata_documents_query_get_title
    (gdata_documents_query_set_property q 5 value) = g_value_get_string value /\
  forall t e,
    gdata_documents_query_get_exact_title (gdata_documents_query_set_title q t e) = e /\
    gdata_documents_query_get_title (gdata_documents_query_set_title q t e) = t.
Proof. repeat split. Qed.

(** C7, as amended.  The flag [exact_title] does not depend on the title:
    [set_title] stores the flag its caller passes, also when it clears the
    title, and every other field but the title is kept; so the flag is as
    before the clear when the caller passes the value it had. *)
Theorem set_title_stores_argument q (t : option string) (e : gboolean) :
  let q' := gdata_documents_query_set_title q t e in
  gdata_documents_query_get_exact_title q' = e /\
  gdata_documents_query_get_title q' = t /\
  gdata_documents_query_get_folder_id q' = gdata_documents_query_get_folder_id q /\
  gdata_documents_query_show_deleted q' = gdata_documents_query_show_deleted q /\
  gdata_documents_query_show_folders q' = gdata_documents_query_show_folders q /\
  gdata_documents_query_get_collaborator_addresses q'
  = gdata_documents_query_get_collaborator_addresses q /\
  gdata_documents_query_get_reader_addresses q'
  = gdata_documents_query_get_reader_addresses q /\
  parent q' = parent q.
Proof. repeat split. Qed.

Lemma address_new_after_check (a : option string) (relation lbl : option string) primary :
  email_address_given a = true ->
  exists s, a = Some s /\
    gdata_gd_email_address_new a relation lbl primary
    = Some {| address := s; relation_type := relation; label := lbl;
              is_primary := primary |}.
Proof.
  destruct a as [[|ch s]|]; try discriminate. intros _. now eexists.
Qed.

(** C8. With an empty or an absent address, [add_collaborator] and
    [add_reader] fail their check and return at once, the instance being as
    it was; with any other address they add, at the end of their list and
    of it alone, one new address object for that address, of relation
    [collaborator], respectively [reader]. *)
Theorem add_address q (s : string) :
  s <> EmptyString ->
  gdata_documents_query_add_collaborator q None = (q, G_CRITICAL) /\
  gdata_documents_query_add_collaborator q (Some EmptyString) = (q, G_CRITICAL) /\
  gdata_documents_query_add_reader q None = (q, G_CRITICAL) /\
  gdata_documents_query_add_reader q (Some EmptyString) = (q, G_CRITICAL) /\
  gdata_documents_query_add_collaborator q (Some s)
  = ({| parent := parent q;
        priv := {| show_deleted := show_deleted (priv q);
                   show_folders := show_folders (priv q);
                   exact_title := exact_title (priv q);
                   folder_id := folder_id (priv q);
                   title := title (priv q);
                   collaborator_addresses :=
                     (collaborator_addresses (priv q) ++
                      [{| address := s; relation_type := Some "collaborator";
                          label := None; is_primary := false |}])%list;
                   reader_addresses := reader_addresses (priv q) |} |},
     G_OK) /\
  gdata_documents_query_add_reader q (Some s)
  = ({| parent := parent q;
        priv := {| show_deleted := show_deleted (priv q);
                   show_folders := show_folders (priv q);
                   exact_title := exact_title (priv q);
                   folder_id := folder_id (priv q);
                   title := title (priv q);
                   collaborator_addresses := collaborator_addresses (priv q);
                   reader_addresses :=
                     (reader_addresses (priv q) ++
                      [{| address := s; relation_type := Some "reader";
                          label := None; is_primary := false |}])%list |} |},
     G_OK).
Proof.
  intros Hs. repeat split; destruct s as [|ch s]; solve [now elim Hs | reflexivity].
Qed.

Lemma chain_up_appends feed c :
  parent_appends Q -> exists t, query_uri (chain_up feed c) = query_uri c ++ t.
Proof.
  intros Hp.
  destruct (Hp (parent (self c)) feed (query_uri c) (params_started c)) as [t Ht].
  exists t. rewrite <- Ht. unfold chain_up.
  now destruct (parent_class_get_query_uri (parent (self c)) feed (query_uri c)
                  (params_started c)).
Qed.

Lemma folder_segment_no_question_mark f :
  all (fun ch => negb (is_question_mark ch)) (folder_segment f) = true.
Proof.
  unfold folder_segment. rewrite all_app, uri_escaped_no_question_mark. reflexivity.
Qed.

(** C3, as amended.  With the entry ID absent and the folder ID set, the
    function first adds to the string it was given, whatever it holds, the
    text [/folder%3A], as it stands, and the escaped folder ID; only then
    does the parent's step run, and the parameters of the documents query
    follow.  With the folder ID unset nothing is added before the parent's
    step.  When the parent only appends, what follows the string given
    starts with the folder's path; when moreover the string given holds no
    ['?'], the folder's path is ahead of every ['?'] of the result. *)
Theorem folder_path_first feed c :
  gdata_query_get_entry_id (parent (self c)) = None ->
  let p := priv (self c) in
  let c0 := match folder_id p with
            | Some f =>
                with_uri c (query_uri c ++ "/folder%3A" ++ uri_escaped f) (params_started c)
            | None => c
            end in
  path_step c = c0 /\
  get_query_uri feed c
  = with_uri c
      (query_uri (chain_up feed c0)
       ++ documents_text (params_started (chain_up feed c0)) p)
      true /\
  (parent_appends Q ->
   forall f, folder_id p = Some f ->
     exists t,
       query_uri (get_query_uri feed c)
       = query_uri c ++ "/folder%3A" ++ uri_escaped f ++ t /\
       (all (fun ch => negb (is_question_mark ch)) (query_uri c) = true ->
        before_any_question_mark ("/folder%3A" ++ uri_escaped f)
          (query_uri (get_query_uri feed c)) = true)).
Proof.
  intros E p c0.
  assert (P : path_step c = c0).
  { unfold path_step. rewrite E. reflexivity. }
  split; [exact P|]. split.
  - rewrite <- P. exact (get_query_uri_collection feed c E).
  - intros Hp f Hf. rewrite (get_query_uri_collection feed c E).
    cbn [with_uri query_uri]. fold p.
    destruct (chain_up_appends feed (path_step c) Hp) as [t Ht]. rewrite Ht.
    unfold path_step. rewrite E. fold p. rewrite Hf. cbn [with_uri query_uri].
    fold (folder_segment f).
    exists (t ++ params_text (params_started (chain_up feed
              (with_uri c (query_uri c ++ folder_segment f) (params_started c))))
              (documents_params p)).
    rewrite !app_assoc. split; [reflexivity|].
    intros Hq. unfold before_any_question_mark.
    rewrite (before_app _ _ _ Hq).
    rewrite (before_app _ _ _ (folder_segment_no_question_mark f)).
    apply occurs_app_l, occurs_here.
Qed.

(** C4.  With the entry ID absent, after the parent's step the function
    writes, for a list of collaborators that is not empty, one parameter
    [writer], after ['?'] or ['&'] as the flag has it, whose value is the
    addresses of the list in their order, each one escaped, with a semicolon
    between two of them and none ahead of the first; then the same, under
    the name [reader] and after ['&'] if anything was written so far, for the
    list of readers.  An empty list writes nothing.  Read back, the text has
    one parameter of either name for a list that is not empty and none for
    an empty one. *)
Theorem address_list_parameters feed c :
  gdata_query_get_entry_id (parent (self c)) = None ->
  let p := priv (self c) in
  let c1 := chain_up feed (path_step c) in
  let started := params_started c1 in
  let writers := collaborator_addresses p in
  let readers := reader_addresses p in
  query_uri (get_query_uri feed c)
  = query_uri c1 ++
    match writers with
    | [] => ""
    | _ :: _ =>
        separator started ++ "writer=" ++
        String.concat ";" (map (fun a => uri_escaped (address a)) writers)
    end ++
    match readers with
    | [] => ""
    | _ :: _ =>
        separator (started || nonempty writers) ++ "reader=" ++
        String.concat ";" (map (fun a => uri_escaped (address a)) readers)
    end ++
    params_text (started || nonempty writers || nonempty readers)
      (title_params p ++ flag_params p) /\
  params_named "writer" (query_params (documents_text started p))
  = match writers with
    | [] => []
    | _ :: _ => [("writer", String.concat ";" (map (fun a => uri_escaped (address a)) writers))]
    end /\
  params_named "reader" (query_params (documents_text started p))
  = match readers with
    | [] => []
    | _ :: _ => [("reader", String.concat ";" (map (fun a => uri_escaped (address a)) readers))]
    end.
Proof.
  intros E p c1 started writers readers. rewrite (get_query_uri_collection feed c E).
  cbn [with_uri query_uri]. fold c1 p started.
  unfold documents_text. rewrite documents_params_read_back.
  unfold documents_params. fold writers readers. split; [|split].
  - rewrite !params_text_app, !params_text_list, !nonempty_list_param.
    unfold address_param_text, address_list. now destruct writers, readers.
  - unfold params_named. rewrite !filter_app. unfold list_param, title_params.
    destruct writers, readers, (title p), (exact_title p); reflexivity.
  - unfold params_named. rewrite !filter_app. unfold list_param, title_params.
    destruct writers, readers, (title p), (exact_title p); reflexivity.
Qed.

(** C5.  With the entry ID absent and the title set, be it to the empty
    string, the function writes, after the lists of addresses, the
    parameter [title] with the escaped title, after ['?'] or ['&'] as the
    flag has it, and, when [exact_title] is [TRUE], the text
    [&title-exact=true] right behind it; with the title unset it writes
    neither, whatever [exact_title] is. *)
Theorem title_parameter feed c :
  gdata_query_get_entry_id (parent (self c)) = None ->
  let p := priv (self c) in
  let c1 := chain_up feed (path_step c) in
  let lists := (list_param "writer" (collaborator_addresses p) ++
                list_param "reader" (reader_addresses p))%list in
  let started := params_started c1 || nonempty lists in
  query_uri (get_query_uri feed c)
  = query_uri c1 ++ params_text (params_started c1) lists ++
    match title p with
    | Some t =>
        separator started ++ "title=" ++ uri_escaped t ++
        (if exact_title p then "&title-exact=true" else "") ++
        flags_text true p
    | None => flags_text started p
    end /\
  params_named "title" (query_params (documents_text (params_started c1) p))
  = match title p with
    | Some t => [("title", uri_escaped t)]
    | None => []
    end /\
  params_named "title-exact" (query_params (documents_text (params_started c1) p))
  = match title p with
    | Some _ => if exact_title p then [("title-exact", "true")] else []
    | None => []
    end.
Proof.
  intros E p c1 lists started. rewrite (get_query_uri_collection feed c E).
  cbn [with_uri query_uri]. fold c1 p.
  unfold documents_text. rewrite documents_params_read_back.
  unfold documents_params. split; [|split].
  - rewrite List.app_assoc. fold lists.
    rewrite params_text_app. fold started.
    rewrite params_text_app, params_text_title, params_text_flags.
    unfold title_text, title_params.
    destruct (title p) as [t|].
    + cbn [nonempty]. rewrite orb_true_r, !app_assoc. reflexivity.
    + cbn [nonempty String.append]. now rewrite orb_false_r.
  - unfold params_named. rewrite !filter_app. unfold list_param, title_params.
    destruct (collaborator_addresses p), (reader_addresses p), (title p), (exact_title p);
      reflexivity.
  - unfold params_named. rewrite !filter_app. unfold list_param, title_params.
    destruct (collaborator_addresses p), (reader_addresses p), (title p), (exact_title p);
      reflexivity.
Qed.

(** One call without an entry ID, seen from the caller. *)
Lemma compose_uri_collection q feed uri started :
  gdata_query_get_entry_id (parent q) = None ->
  compose_uri q feed uri started
  = let base := parent_class_get_query_uri (parent q) feed
                  match folder_id (priv q) with
                  | Some f => uri ++ "/folder%3A" ++ uri_escaped f
                  | None => uri
                  end started in
    (fst base ++ documents_text (snd base) (priv q), true).
Proof.
  intros E. unfold compose_uri.
  rewrite (get_query_uri_collection feed
             {| self := q; query_uri := uri; params_started := started |} E).
  cbn [with_uri query_uri params_started self].
  unfold path_step, chain_up, folder_segment. cbn [self query_uri params_started].
  rewrite E.
  destruct (folder_id (priv q)) as [f|]; cbn [with_uri self query_uri params_started];
    match goal with
    | |- context [parent_class_get_query_uri ?a ?b ?c ?d] =>
        destruct (parent_class_get_query_uri a b c d)
    end; reflexivity.
Qed.

(** C6.  A folder ID and a title are stored as they are given, the empty
    string and [NULL] included, by the setters and by the property
    interface, and the accessors return them so, whether the query has an
    entry ID or not; no other operation touches them.  Without an entry ID
    the composition takes the empty string for a value that is set (the
    path [/folder%3A] is added, the parameter [title] is written with an
    empty value) and [NULL] for one that is not (no path, no parameter). *)
Theorem tri_state q feed uri started :
  (forall v,
     gdata_documents_query_get_folder_id (gdata_documents_query_set_folder_id q v) = v /\
     gdata_documents_query_get_title (gdata_documents_query_set_folder_id q v)
     = gdata_documents_query_get_title q) /\
  (forall v e,
     gdata_documents_query_get_title (gdata_documents_query_set_title q v e) = v /\
     gdata_documents_query_get_folder_id (gdata_documents_query_set_title q v e)
     = gdata_documents_query_get_folder_id q) /\
  (forall v,
     let q' := gdata_documents_query_set_property q 4 (G_TYPE_STRING v) in
     gdata_documents_query_get_folder_id q' = v /\
     gdata_documents_query_get_property q' 4 = Some (G_TYPE_STRING v) /\
     gdata_documents_query_get_title q' = gdata_documents_query_get_title q) /\
  (forall v,
     let q' := gdata_documents_query_set_property q 5 (G_TYPE_STRING v) in
     gdata_documents_query_get_title q' = v /\
     gdata_documents_query_get_property q' 5 = Some (G_TYPE_STRING v) /\
     gdata_documents_query_get_folder_id q' = gdata_documents_query_get_folder_id q) /\
  (forall b a property_id value q',
     q' = gdata_documents_query_set_show_deleted q b \/
     q' = gdata_documents_query_set_show_folders q b \/
     q' = fst (gdata_documents_query_add_collaborator q a) \/
     q' = fst (gdata_documents_query_add_reader q a) \/
     (property_id <> 4%N /\ property_id <> 5%N /\
      q' = gdata_documents_query_set_property q property_id value) \/
     q' = self (get_query_uri feed {| self := q; query_uri := uri;
                                      params_started := started |}) ->
     gdata_documents_query_get_folder_id q' = gdata_documents_query_get_folder_id q /\
     gdata_documents_query_get_title q' = gdata_documents_query_get_title q) /\
  (gdata_query_get_entry_id (parent q) = None ->
   compose_uri (gdata_documents_query_set_folder_id q (Some "")) feed uri started
   = (let base := parent_class_get_query_uri (parent q) feed (uri ++ "/folder%3A") started in
      (fst base ++ documents_text (snd base) (priv q), true)) /\
   compose_uri (gdata_documents_query_set_folder_id q None) feed uri started
   = (let base := parent_class_get_query_uri (parent q) feed uri started in
      (fst base ++ documents_text (snd base) (priv q), true)) /\
   forall e,
     let base := parent_class_get_query_uri (parent q) feed
                   match folder_id (priv q) with
                   | Some f => uri ++ "/folder%3A" ++ uri_escaped f
                   | None => uri
                   end started in
     let empty := priv (gdata_documents_query_set_title q (Some "") e) in
     let unset := priv (gdata_documents_query_set_title q None e) in
     compose_uri (gdata_documents_query_set_title q (Some "") e) feed uri started
     = (fst base ++ documents_text (snd base) empty, true) /\
     params_named "title" (query_params (documents_text (snd base) empty))
     = [("title", "")] /\
     compose_uri (gdata_documents_query_set_title q None e) feed uri started
     = (fst base ++ documents_text (snd base) unset, true) /\
     params_named "title" (query_params (documents_text (snd base) unset)) = []).
Proof.
  split; [now split|]. split; [now split|].
  split; [intros v q'; repeat split|]. split; [intros v q'; repeat split|].
  split.
  { intros b a property_id value q' [-> | [-> | [-> | [-> | [[N4 [N5 ->]] | ->]]]]].
    - now split.
    - now split.
    - unfold gdata_documents_query_add_collaborator.
      destruct (negb (email_address_given a)); [now split|].
      now destruct (gdata_gd_email_address_new a (Some "collaborator") None false).
    - unfold gdata_documents_query_add_reader.
      destruct (negb (email_address_given a)); [now split|].
      now destruct (gdata_gd_email_address_new a (Some "reader") None false).
    - unfold gdata_documents_query_set_property.
      destruct (prop_of_id property_id) as [[]|] eqn:P; try (now split).
      + destruct property_id as [|[[[]|[]|]|[[]|[]|]|]]; try discriminate P.
        now elim N4.
      + destruct property_id as [|[[[]|[]|]|[[]|[]|]|]]; try discriminate P.
        now elim N5.
    - now rewrite get_query_uri_self. }
  intros E. split; [|split].
  - rewrite compose_uri_collection by exact E.
    cbn [gdata_documents_query_set_folder_id with_priv priv parent folder_id g_strdup].
    unfold uri_escaped. cbn [g_string_append_uri_escaped uri_encoder String.append].
    reflexivity.
  - now rewrite compose_uri_collection by exact E.
  - intros e base empty unset.
    rewrite !compose_uri_collection by exact E.
    unfold documents_text. rewrite !documents_params_read_back.
    repeat split.
    + subst empty. unfold documents_params, params_named. rewrite !filter_app.
      unfold list_param, title_params.
      cbn [gdata_documents_query_set_title with_priv priv title exact_title
           collaborator_addresses reader_addresses g_strdup].
      destruct (collaborator_addresses (priv q)), (reader_addresses (priv q)), e;
        reflexivity.
    + subst unset. unfold documents_params, params_named. rewrite !filter_app.
      unfold list_param, title_params.
      cbn [gdata_documents_query_set_title with_priv priv title exact_title
           collaborator_addresses reader_addresses g_strdup].
      destruct (collaborator_addresses (priv q)), (reader_addresses (priv q));
        reflexivity.
Qed.

End Properties.

(* ================================================================= *)
(** ** The properties on sample queries *)

Lemma base_query_appends : parent_appends BaseQuery.t.
Proof.
  intros q feed_uri s started.
  unfold parent_class_get_query_uri, BaseQuery.class, BaseQuery.get_query_uri.
  destruct (BaseQuery.entry_id q), (BaseQuery.q q) as [term|];
    cbn [fst]; try (exists EmptyString; now rewrite StrFacts.app_nil_r).
  unfold g_string_append_uri_escaped, g_string_append, g_string_append_c.
  eexists. rewrite !StrFacts.app_assoc. reflexivity.
Qed.

(** A query with every field set and an entry ID: the URI is the one the
    parent leaves. *)
Lemma entry_id_short_circuit_witness :
  let c := Sample.call (Sample.full (BaseQuery.entry "doc1")) feed false in
  gdata_query_get_entry_id (parent (self c)) = Some "doc1" /\
  query_uri (get_query_uri feed c) = feed /\
  params_started (get_query_uri feed c) = false.
Proof.
  intros c.
  assert (I : gdata_query_get_entry_id (parent (self c)) = Some "doc1") by reflexivity.
  destruct (entry_id_short_circuit feed c "doc1" I) as [E _].
  split; [exact I|]. rewrite E. split; reflexivity.
Defined.

(** The claim C2 fails when the entry ID is present: neither flag is
    written, although [show_deleted] is set. *)
Lemma visibility_flags_absent_with_entry_id :
  let c := Sample.call (Sample.full (BaseQuery.entry "doc1")) feed false in
  show_deleted (priv (self c)) = true /\
  query_uri (get_query_uri feed c) = feed /\
  Str.occurs "showdeleted" (query_uri (get_query_uri feed c)) = false /\
  Str.occurs "showfolders" (query_uri (get_query_uri feed c)) = false.
Proof. vm_compute. repeat split. Qed.

Lemma visibility_flags_witness :
  let c := Sample.call (Sample.full (BaseQuery.search "tax")) feed false in
  gdata_query_get_entry_id (parent (self c)) = None /\
  query_uri (get_query_uri feed c)
  = feed ++ "/folder%3Aabc?q=tax&writer=w%40z.org&reader=a%40x.com;b%40y.com"
         ++ "&title=Annual%20Report&title-exact=true"
         ++ "&showdeleted=true&showfolders=false" /\
  params_named "showdeleted"
    (query_params (documents_text true (priv (self c)))) = [("showdeleted", "true")].
Proof.
  intros c.
  assert (I : gdata_query_get_entry_id (parent (self c)) = None) by reflexivity.
  destruct (visibility_flags feed c I) as [E [_ [D _]]].
  split; [reflexivity|]. split; [rewrite E; reflexivity | exact D].
Defined.

(** The claim C3 fails when the string given already has a ['?']: the
    folder's path comes behind it. *)
Lemma folder_path_after_question_mark :
  let feed_v3 := feed ++ "?v=3" in
  let c := Sample.call (Sample.in_folder BaseQuery.collection) feed_v3 true in
  gdata_query_get_entry_id (parent (self c)) = None /\
  folder_id (priv (self c)) = Some "abc" /\
  query_uri (get_query_uri feed_v3 c)
  = feed ++ "?v=3/folder%3Aabc&showdeleted=false&showfolders=false" /\
  before_any_question_mark "/folder%3Aabc" (query_uri (get_query_uri feed_v3 c)) = false.
Proof. vm_compute. repeat split. Qed.

Lemma folder_path_first_witness :
  let c := Sample.call (Sample.in_folder (BaseQuery.search "tax")) feed false in
  gdata_query_get_entry_id (parent (self c)) = None /\
  query_uri (get_query_uri feed c)
  = feed ++ "/folder%3Aabc?q=tax&showdeleted=false&showfolders=false" /\
  before_any_question_mark "/folder%3Aabc" (query_uri (get_query_uri feed c)) = true.
Proof.
  intros c.
  assert (I : gdata_query_get_entry_id (parent (self c)) = None) by reflexivity.
  assert (N : Str.all (fun ch => negb (is_question_mark ch)) (query_uri c) = true)
    by reflexivity.
  destruct (folder_path_first feed c I) as [_ [E F]].
  assert (A : folder_id (priv (self c)) = Some "abc") by reflexivity.
  destruct (F base_query_appends "abc" A) as [t [_ B]].
  split; [reflexivity|]. split; [rewrite E; reflexivity | exact (B N)].
Defined.

Lemma address_list_parameters_witness :
  let c := Sample.call (Sample.full BaseQuery.collection) feed false in
  gdata_query_get_entry_id (parent (self c)) = None /\
  query_uri (get_query_uri feed c)
  = feed ++ "/folder%3Aabc?writer=w%40z.org&reader=a%40x.com;b%40y.com"
         ++ "&title=Annual%20Report&title-exact=true"
         ++ "&showdeleted=true&showfolders=false" /\
  params_named "reader" (query_params (documents_text false (priv (self c))))
  = [("reader", "a%40x.com;b%40y.com")].
Proof.
  intros c.
  assert (I : gdata_query_get_entry_id (parent (self c)) = None) by reflexivity.
  destruct (address_list_parameters feed c I) as [E [_ R]].
  split; [reflexivity|]. split; [rewrite E; reflexivity | exact R].
Defined.

Lemma title_parameter_witness :
  let c := Sample.call (Sample.exact BaseQuery.collection) feed false in
  gdata_query_get_entry_id (parent (self c)) = None /\
  query_uri (get_query_uri feed c)
  = feed ++ "?title=Annual%20Report&title-exact=true&showdeleted=false&showfolders=false" /\
  params_named "title-exact" (query_params (documents_text false (priv (self c))))
  = [("title-exact", "true")].
Proof.
  intros c.
  assert (I : gdata_query_get_entry_id (parent (self c)) = None) by reflexivity.
  destruct (title_parameter feed c I) as [E [_ X]].
  split; [reflexivity|]. split; [rewrite E; reflexivity | exact X].
Defined.

Lemma tri_state_witness :
  let q := Sample.full BaseQuery.collection in
  gdata_query_get_entry_id (parent q) = None /\
  compose_uri (gdata_documents_query_set_folder_id q (Some "")) feed feed false
  = (feed ++ "/folder%3A?writer=w%40z.org&reader=a%40x.com;b%40y.com"
          ++ "&title=Annual%20Report&title-exact=true"
          ++ "&showdeleted=true&showfolders=false", true) /\
  compose_uri (gdata_documents_query_set_folder_id q None) feed feed false
  = (feed ++ "?writer=w%40z.org&reader=a%40x.com;b%40y.com"
          ++ "&title=Annual%20Report&title-exact=true"
          ++ "&showdeleted=true&showfolders=false", true) /\
  gdata_documents_query_get_title
    (gdata_documents_query_set_property (Sample.full (BaseQuery.entry "doc1")) 5
       (G_TYPE_STRING (Some ""))) = Some "".
Proof.
  intros q.
  assert (I : gdata_query_get_entry_id (parent q) = None) by reflexivity.
  destruct (tri_state q feed feed false) as [_ [_ [_ [_ [_ C]]]]].
  destruct (C I) as [E [U _]].
  destruct (tri_state (Sample.full (BaseQuery.entry "doc1")) feed feed false)
    as [_ [_ [_ [T _]]]].
  destruct (T (Some "")) as [S _].
  split; [exact I|]. split; [rewrite E; reflexivity|].
  split; [rewrite U; reflexivity | exact S].
Defined.

(** The claim C7 fails: clearing the title with [FALSE] for the flag
    resets a flag that was set, and clearing it through the property sets a
    flag that was not. *)
Lemma exact_title_changed_by_clear :
  let q := Sample.exact BaseQuery.collection in
  let q0 := gdata_documents_query_init BaseQuery.collection in
  gdata_documents_query_get_exact_title q = true /\
  gdata_documents_query_get_exact_title (gdata_documents_query_set_title q None false)
  = false /\
  gdata_documents_query_get_exact_title q0 = false /\
  gdata_documents_query_get_exact_title
    (gdata_documents_query_set_property q0 5 (G_TYPE_STRING None)) = true.
Proof. repeat split. Qed.

Lemma add_address_witness :
  let q := Sample.in_folder BaseQuery.collection in
  "b@y.com" <> EmptyString /\
  gdata_documents_query_add_reader q (Some "") = (q, G_CRITICAL) /\
  gdata_documents_query_get_reader_addresses
    (fst (gdata_documents_query_add_reader
            (fst (gdata_documents_query_add_reader q (Some "a@x.com"))) (Some "b@y.com")))
  = [ {| address := "a@x.com"; relation_type := Some "reader";
         label := None; is_primary := false |};
      {| address := "b@y.com"; relation_type := Some "reader";
         label := None; is_primary := false |} ].
Proof.
  intros q.
  assert (N : "b@y.com" <> EmptyString) by discriminate.
  destruct (add_address (fst (gdata_documents_query_add_reader q (Some "a@x.com")))
              "b@y.com" N) as [_ [_ [_ [_ [_ R]]]]].
  split; [exact N|]. split; [reflexivity|].
  rewrite R. reflexivity.
Defined.

Example escape_space :
  g_string_append_uri_escaped "title=" "Annual Report" None true = "title=Annual%20Report".
Proof. reflexivity. Qed.

Example escape_at :
  g_string_append_uri_escaped "" "a@x.com" None true = "a%40x.com".
Proof. reflexivity. Qed.

Example scenario_title :
  compose_uri
    (gdata_documents_query_set_title
       (gdata_documents_query_init BaseQuery.collection) (Some "Annual Report") true)
    feed feed false
  = (feed ++ "?title=Annual%20Report&title-exact=true&showdeleted=false&showfolders=false",
     true).
Proof. reflexivity. Qed.

Example scenario_readers :
  let q0 := gdata_documents_query_init BaseQuery.collection in
  let q1 := fst (gdata_documents_query_add_reader q0 (Some "a@x.com")) in
  let q2 := fst (gdata_documents_query_add_reader q1 (Some "b@y.com")) in
  compose_uri q2 feed feed false
  = (feed ++ "?reader=a%40x.com;b%40y.com&showdeleted=false&showfolders=false", true).
Proof. reflexivity. Qed.

Example scenario_folder_after_search :
  compose_uri
    (gdata_documents_query_set_folder_id
       (gdata_documents_query_init (BaseQuery.search "tax 2010")) (Some "abc"))
    feed feed false
  = (feed ++ "/folder%3Aabc?q=tax%202010&showdeleted=false&showfolders=false", true).
Proof. reflexivity. Qed.

(* ================================================================= *)
(** ** The property interface and the setters, call by call *)

Section Setters.

Context {Q : Type}.
Implicit Types (q : GDataDocumentsQuery Q).

Lemma prop_of_id_spec (property_id : N) (p : PROP) :
  prop_of_id property_id = Some p <-> property_id = id_of_prop p.
Proof.
  split.
  - destruct property_id as [|[[[]|[]|]|[[]|[]|]|]]; simpl; try discriminate;
      intros E; injection E as <-; reflexivity.
  - intros ->. now destruct p.
Qed.

Lemma find_property_installed (property_id : N) (pspec : GParamSpec) :
  g_object_class_find_property_by_id gdata_documents_query_class_init property_id
  = Some pspec ->
  exists p, prop_of_id property_id = Some p /\ In (id_of_prop p, pspec)
                                                 gdata_documents_query_class_init.
Proof.
  unfold gdata_documents_query_class_init. cbn [g_object_class_find_property_by_id].
  repeat match goal with
         | |- context [(id_of_prop ?p =? property_id)%N] =>
             destruct (N.eqb_spec (id_of_prop p) property_id) as [<-|_];
             [intros E; injection E as <-; exists p; split; [reflexivity|];
              cbn [In]; tauto|]
         end.
  discriminate.
Qed.

Lemma find_property_none (property_id : N) :
  g_object_class_find_property_by_id gdata_documents_query_class_init property_id = None
  <-> prop_of_id property_id = None.
Proof.
  split.
  - intros E. destruct (prop_of_id property_id) as [p|] eqn:P; [|reflexivity].
    apply prop_of_id_spec in P. subst property_id. now destruct p.
  - intros E.
    destruct (g_object_class_find_property_by_id gdata_documents_query_class_init
                property_id) as [pspec|] eqn:F; [|reflexivity].
    destruct (find_property_installed _ _ F) as [p [P _]]. congruence.
Qed.

(** X1.  A value of the type of an installed property, once set through
    the property interface, is the value the interface gives back for that
    property. *)
Theorem property_round_trip q (property_id : N) (pspec : GParamSpec) (value : GValue) :
  g_object_class_find_property_by_id gdata_documents_query_class_init property_id
  = Some pspec ->
  g_value_type_compatible pspec value = true ->
  gdata_documents_query_get_property
    (gdata_documents_query_set_property q property_id value) property_id
  = Some value.
Proof.
  intros F T. destruct (find_property_installed _ _ F) as [p [P I]].
  apply prop_of_id_spec in P. subst property_id.
  unfold gdata_documents_query_class_init in I. cbn [In] in I.
  destruct I as [I|[I|[I|[I|[I|[]]]]]]; injection I as I <-;
    destruct p; try discriminate I; destruct value; try discriminate T; reflexivity.
Qed.

(** X2.  The two [switch] statements know the installed properties and no
    other: for a property ID under which [class_init] installs nothing,
    setting leaves the query as it is and getting gives no value; for an
    installed one getting gives a value of the property's type. *)
Theorem property_ids_installed q (property_id : N) (value : GValue) :
  match g_object_class_find_property_by_id gdata_documents_query_class_init
          property_id with
  | None =>
      gdata_documents_query_set_property q property_id value = q /\
      gdata_documents_query_get_property q property_id = None
  | Some pspec =>
      exists v, gdata_documents_query_get_property q property_id = Some v /\
                g_value_type_compatible pspec v = true
  end.
Proof.
  destruct (g_object_class_find_property_by_id gdata_documents_query_class_init
              property_id) as [pspec|] eqn:F.
  - destruct (find_property_installed _ _ F) as [p [P I]].
    apply prop_of_id_spec in P. subst property_id.
    unfold gdata_documents_query_class_init in I. cbn [In] in I.
    destruct I as [I|[I|[I|[I|[I|[]]]]]]; injection I as I <-;
      destruct p; try discriminate I; eexists; split; reflexivity.
  - apply find_property_none in F.
    unfold gdata_documents_query_set_property, gdata_documents_query_get_property.
    now rewrite F.
Qed.

(** X3.  A new instance reports, for every property [class_init]
    installs, the default of its specification: the zero-filled private
    data and the declared defaults agree. *)
Theorem new_instance_defaults (base : Q) (property_id : N) (pspec : GParamSpec) :
  In (property_id, pspec) gdata_documents_query_class_init ->
  gdata_documents_query_get_property (gdata_documents_query_init base) property_id
  = Some (g_param_spec_get_default_value pspec).
Proof.
  unfold gdata_documents_query_class_init. cbn [In].
  intros [I|[I|[I|[I|[I|[]]]]]]; injection I as <- <-; reflexivity.
Qed.

Lemma add_reader_result q (a : option string) :
  fst (gdata_documents_query_add_reader q a)
  = {| parent := parent q;
       priv := {| show_deleted := show_deleted (priv q);
                  show_folders := show_folders (priv q);
                  exact_title := exact_title (priv q);
                  folder_id := folder_id (priv q);
                  title := title (priv q);
                  collaborator_addresses := collaborator_addresses (priv q);
                  reader_addresses :=
                    (reader_addresses (priv q)
                     ++ map (new_address "reader") (given_addresses [a]))%list |} |}.
Proof.
  destruct q as [b [sd sf et fid t cs rs]].
  destruct a as [[|ch s]|]; cbn; rewrite ?List.app_nil_r; reflexivity.
Qed.

Lemma add_collaborator_result q (a : option string) :
  fst (gdata_documents_query_add_collaborator q a)
  = {| parent := parent q;
       priv := {| show_deleted := show_deleted (priv q);
                  show_folders := show_folders (priv q);
                  exact_title := exact_title (priv q);
                  folder_id := folder_id (priv q);
                  title := title (priv q);
                  collaborator_addresses :=
                    (collaborator_addresses (priv q)
                     ++ map (new_address "collaborator") (given_addresses [a]))%list;
                  reader_addresses := reader_addresses (priv q) |} |}.
Proof.
  destruct q as [b [sd sf et fid t cs rs]].
  destruct a as [[|ch s]|]; cbn; rewrite ?List.app_nil_r; reflexivity.
Qed.

(** X4.  Two calls that assign no common field can be made in either
    order: the query they leave is the same. *)
Theorem disjoint_calls_commute q (a b : setter_call) :
  disjoint_fields (written a) (written b) = true ->
  perform (perform q a) b = perform (perform q b) a.
Proof.
  intros D.
  destruct a as [x|x|x|x y|x|x|ida x], b as [u|u|u|u v|u|u|idb u];
    cbn [written] in D;
    repeat match type of D with
           | context [prop_of_id ?i] =>
               let P := fresh "P" in
               destruct (prop_of_id i) as [[]|] eqn:P
           end;
    try discriminate D;
    cbn [perform];
    unfold gdata_documents_query_set_property;
    repeat match goal with
           | P : prop_of_id _ = _ |- _ => rewrite P; clear P
           end;
    rewrite ?add_reader_result, ?add_collaborator_result;
    reflexivity.
Qed.

(** X5.  A call leaves every field its code does not assign, and the
    parent's part of the instance, as they were; of the calls through the
    property interface, the one for the title assigns [exact_title] as
    well. *)
Theorem call_frame q (call : setter_call) (f : field) :
  existsb (field_eqb f) (written call) = false ->
  kept f (priv q) (priv (perform q call)) /\ parent (perform q call) = parent q.
Proof.
  intros W.
  destruct call as [x|x|x|x y|x|x|id x];
    cbn [written] in W;
    repeat match type of W with
           | context [prop_of_id ?i] =>
               let P := fresh "P" in
               destruct (prop_of_id i) as [[]|] eqn:P
           end;
    cbn [perform];
    unfold gdata_documents_query_set_property;
    repeat match goal with
           | P : prop_of_id _ = _ |- _ => rewrite P; clear P
           end;
    rewrite ?add_reader_result, ?add_collaborator_result;
    destruct f; try discriminate W; split; reflexivity.
Qed.

(** X6.  Through the property interface, the title and [exact-title] do
    not commute: [exact-title] set after the title is the flag stored, while
    the title set after [exact-title] stores [TRUE] whatever was set; the
    title stored is the same. *)
Theorem title_property_order q (t : option string) (e : gboolean) :
  let title_first :=
    gdata_documents_query_set_property
      (gdata_documents_query_set_property q (id_of_prop PROP_TITLE) (G_TYPE_STRING t))
      (id_of_prop PROP_EXACT_TITLE) (G_TYPE_BOOLEAN e) in
  let title_last :=
    gdata_documents_query_set_property
      (gdata_documents_query_set_property q (id_of_prop PROP_EXACT_TITLE) (G_TYPE_BOOLEAN e))
      (id_of_prop PROP_TITLE) (G_TYPE_STRING t) in
  gdata_documents_query_get_exact_title title_first = e /\
  gdata_documents_query_get_exact_title title_last = true /\
  gdata_documents_query_get_title title_first = t /\
  gdata_documents_query_get_title title_last = t /\
  (title_first = title_last <-> e = true).
Proof.
  cbv zeta. repeat split.
  - intros E. apply (f_equal gdata_documents_query_get_exact_title) in E. exact E.
  - intros ->. reflexivity.
Qed.

(** X21.  A call that assigns values overrides the calls before it that
    assign, among its fields, fields only: the query is as if the earlier
    call had not been made.  (The calls that add an address assign nothing
    in this sense.) *)
Theorem later_call_overrides q (a b : setter_call) :
  appends_address b = false ->
  covered_fields (written a) (written b) = true ->
  perform (perform q a) b = perform q b.
Proof.
  intros A C.
  destruct a as [x|x|x|x y|x|x|ida x], b as [u|u|u|u v|u|u|idb u];
    try discriminate A;
    cbn [written] in C;
    repeat match type of C with
           | context [prop_of_id ?i] =>
               let P := fresh "P" in
               destruct (prop_of_id i) as [[]|] eqn:P
           end;
    try discriminate C;
    cbn [perform];
    unfold gdata_documents_query_set_property;
    repeat match goal with
           | P : prop_of_id _ = _ |- _ => rewrite P; clear P
           end;
    reflexivity.
Qed.

End Setters.

(* ================================================================= *)
(** ** The lists of addresses over sequences of calls *)

Section AddressLists.

Context {Q : Type}.
Implicit Types (q : GDataDocumentsQuery Q).

Lemma given_addresses_cons (a : option string) (l : list (option string)) :
  given_addresses (a :: l) = (given_addresses [a] ++ given_addresses l)%list.
Proof. unfold given_addresses. cbn [flat_map]. now rewrite List.app_nil_r. Qed.

(** X7.  Adding the addresses of a list one after the other, as readers
    or as collaborators, adds to the end of the list concerned one address
    object for every address that is neither [NULL] nor empty, in the order
    of the calls; the addresses that fail the check are passed over, and
    nothing else in the query changes. *)
Theorem addresses_added_in_order q (l : list (option string)) :
  perform_all q (map call_add_reader l)
  = {| parent := parent q;
       priv := {| show_deleted := show_deleted (priv q);
                  show_folders := show_folders (priv q);
                  exact_title := exact_title (priv q);
                  folder_id := folder_id (priv q);
                  title := title (priv q);
                  collaborator_addresses := collaborator_addresses (priv q);
                  reader_addresses :=
                    (reader_addresses (priv q)
                     ++ map (new_address "reader") (given_addresses l))%list |} |} /\
  perform_all q (map call_add_collaborator l)
  = {| parent := parent q;
       priv := {| show_deleted := show_deleted (priv q);
                  show_folders := show_folders (priv q);
                  exact_title := exact_title (priv q);
                  folder_id := folder_id (priv q);
                  title := title (priv q);
                  collaborator_addresses :=
                    (collaborator_addresses (priv q)
                     ++ map (new_address "collaborator") (given_addresses l))%list;
                  reader_addresses := reader_addresses (priv q) |} |}.
Proof.
  unfold perform_all. split.
  - revert q. induction l as [|a l IH]; intros q.
    + destruct q as [b [sd sf et fid t cs rs]]. cbn. now rewrite List.app_nil_r.
    + cbn [map fold_left perform]. rewrite IH, add_reader_result.
      cbn [parent priv show_deleted show_folders exact_title folder_id title
           collaborator_addresses reader_addresses].
      now rewrite (given_addresses_cons a l), map_app, List.app_assoc.
  - revert q. induction l as [|a l IH]; intros q.
    + destruct q as [b [sd sf et fid t cs rs]]. cbn. now rewrite List.app_nil_r.
    + cbn [map fold_left perform]. rewrite IH, add_collaborator_result.
      cbn [parent priv show_deleted show_folders exact_title folder_id title
           collaborator_addresses reader_addresses].
      now rewrite (given_addresses_cons a l), map_app, List.app_assoc.
Qed.

Lemma given_addresses_built (relation : string) (a : option string) :
  forallb (built_address relation) (map (new_address relation) (given_addresses [a]))
  = true.
Proof.
  destruct a as [[|ch s]|]; cbn; try reflexivity.
  unfold built_address, new_address.
  cbn [address relation_type label is_primary String.eqb negb andb].
  now rewrite String.eqb_refl.
Qed.

Lemma perform_built q (call : setter_call) :
  built_lists q = true -> built_lists (perform q call) = true.
Proof.
  unfold built_lists. intros B.
  destruct call as [x|x|x|x y|x|x|id x]; cbn [perform]; try exact B.
  - rewrite add_reader_result. cbn [priv collaborator_addresses reader_addresses].
    apply andb_true_iff in B as [Bc Br].
    now rewrite forallb_app, Bc, Br, given_addresses_built.
  - rewrite add_collaborator_result. cbn [priv collaborator_addresses reader_addresses].
    apply andb_true_iff in B as [Bc Br].
    now rewrite forallb_app, Bc, Br, given_addresses_built.
  - unfold gdata_documents_query_set_property.
    now destruct (prop_of_id id) as [[]|].
Qed.

(** X8.  Whatever calls are made on a new query, every object in its two
    lists is as the two functions build them: its address is not empty, its
    relation is [collaborator] in the list of collaborators and [reader] in
    the list of readers, it has no label and is not primary. *)
Theorem lists_hold_built_addresses (base : Q) (calls : list setter_call) :
  built_lists (perform_all (gdata_documents_query_init base) calls) = true.
Proof.
  unfold perform_all.
  assert (G : forall q, built_lists q = true -> built_lists (fold_left perform calls q) = true).
  { induction calls as [|call calls IH]; intros q B; [exact B|].
    cbn [fold_left]. apply IH, perform_built, B. }
  apply G. reflexivity.
Qed.

End AddressLists.

(* ================================================================= *)
(** ** Facts about reading the values back *)

Module ReadingFacts.
Import Str StrFacts GLibFacts QueryFacts.

Lemma valid_not_percent c : is_valid c None = true -> Ascii.eqb c "%" = false.
Proof. each_byte c; vm_compute; intros E; solve [reflexivity | discriminate E]. Qed.

Lemma valid_not_high c : is_valid c None = true -> (128 <=? N_of_ascii c)%N = false.
Proof. each_byte c; vm_compute; intros E; solve [reflexivity | discriminate E]. Qed.

Lemma high_not_percent c : high_byte c = true -> Ascii.eqb c "%" = false.
Proof. each_byte c; vm_compute; intros E; solve [reflexivity | discriminate E]. Qed.

Lemma safe_no_semicolon c : uri_safe c = true -> negb (is_semicolon c) = true.
Proof. each_byte c; vm_compute; intros E; solve [reflexivity | discriminate E]. Qed.

Lemma safe_query_char c : uri_safe c = true -> query_char c = true.
Proof. unfold query_char. now intros ->. Qed.

Lemma uri_unescaped_plain c rest :
  Ascii.eqb c "%" = false -> uri_unescaped (String c rest) = String c (uri_unescaped rest).
Proof. intros E. cbn [uri_unescaped]. now rewrite E. Qed.

Lemma uri_unescaped_triplet c rest :
  uri_unescaped (String "%" (String (hex (N.shiftr (N_of_ascii c) 4))
                   (String (hex (N.land (N_of_ascii c) 0xF)) rest)))
  = String c (uri_unescaped rest).
Proof. each_byte c; reflexivity. Qed.

Lemma uri_encoder_unescaped (p : string) : forall pending,
  all high_byte (take pending p) = true ->
  uri_unescaped (uri_encoder pending None true p) = p.
Proof.
  induction p as [|c rest IH]; intros pending Hp; [reflexivity|].
  destruct pending as [|k].
  - cbn [uri_encoder]. cbv zeta.
    destruct (true && (128 <=? N_of_ascii c)%N
              && gunichar_ok (g_utf8_get_char_validated (String c rest))) eqn:E.
    + rewrite !andb_true_iff in E. destruct E as [[_ Hc] Hok].
      rewrite (uri_unescaped_plain _ _ (high_not_percent c Hc)). f_equal.
      apply IH. exact (validated_rest_high c rest Hc Hok).
    + destruct (is_valid c None) eqn:Ev.
      * rewrite (uri_unescaped_plain _ _ (valid_not_percent c Ev)). f_equal.
        now apply IH.
      * rewrite uri_unescaped_triplet. f_equal. now apply IH.
  - cbn [uri_encoder]. simpl in Hp. apply andb_true_iff in Hp as [Hc Hk].
    rewrite (uri_unescaped_plain _ _ (high_not_percent c Hc)). f_equal.
    now apply IH.
Qed.

(** Decoding an escaped value gives the value. *)
Lemma uri_escaped_unescaped (s : string) : uri_unescaped (uri_escaped s) = s.
Proof. unfold uri_escaped. simpl. now apply uri_encoder_unescaped. Qed.

Lemma uri_encoder_unreserved (s : string) :
  all (fun c => is_valid c None) s = true -> uri_encoder 0 None true s = s.
Proof.
  induction s as [|c s IH]; [reflexivity|].
  cbn [all uri_encoder]. rewrite andb_true_iff. intros [Hc Hs]. cbv zeta.
  rewrite (valid_not_high c Hc), Hc. cbn [andb]. now rewrite (IH Hs).
Qed.

Lemma uri_escaped_no_semicolon (s : string) :
  all (fun c => negb (is_semicolon c)) (uri_escaped s) = true.
Proof. exact (all_impl _ _ _ safe_no_semicolon (uri_escaped_safe s)). Qed.

Lemma split_next_addresses (l : list GDataGDEmailAddress) : forall a,
  split is_semicolon (uri_escaped (address a) ++ next_addresses l)
  = map (fun a => uri_escaped (address a)) (a :: l).
Proof.
  induction l as [|b l IH]; intros a.
  - cbn [next_addresses map].
    rewrite (split_app _ _ _ (uri_escaped_no_semicolon (address a))).
    cbn [split]. now rewrite app_nil_r.
  - cbn [next_addresses]. rewrite (split_app _ _ _ (uri_escaped_no_semicolon (address a))).
    cbn [String.append split]. change (is_semicolon ";") with true. cbv iota.
    rewrite IH. cbn [map]. now rewrite app_nil_r.
Qed.

(** The value of a list of addresses, cut at the semicolons and decoded,
    gives the addresses. *)
Lemma address_list_read_back (l : list GDataGDEmailAddress) :
  l <> [] ->
  map uri_unescaped (split is_semicolon (address_list l)) = map address l.
Proof.
  destruct l as [|a l]; [congruence|]. intros _.
  rewrite address_list_cons, split_next_addresses, map_map.
  apply map_ext. intros x. apply uri_escaped_unescaped.
Qed.

Lemma next_addresses_chars l : all query_char (next_addresses l) = true.
Proof.
  induction l as [|a l IH]; [reflexivity|].
  cbn [next_addresses]. rewrite !all_app, IH.
  now rewrite (all_impl _ _ _ safe_query_char (uri_escaped_safe (address a))).
Qed.

Lemma address_list_chars l : all query_char (address_list l) = true.
Proof.
  destruct l as [|a l]; [reflexivity|].
  rewrite address_list_cons, all_app, next_addresses_chars.
  now rewrite (all_impl _ _ _ safe_query_char (uri_escaped_safe (address a))).
Qed.

Lemma params_text_chars (l : list (string * string)) : forall started,
  forallb (fun kv => all query_char (fst kv) && all query_char (snd kv)) l = true ->
  all query_char (params_text started l) = true.
Proof.
  induction l as [|[k v] l IH]; intros started Hl; [reflexivity|].
  cbn [forallb fst snd] in Hl. rewrite !andb_true_iff in Hl.
  destruct Hl as [[Hk Hv] Hl].
  cbn [params_text]. rewrite !all_app, Hk, Hv, (IH true Hl).
  now destruct started.
Qed.

Lemma documents_text_chars started (p : GDataDocumentsQueryPrivate) :
  all query_char (documents_text started p) = true.
Proof.
  unfold documents_text. apply params_text_chars.
  unfold documents_params. rewrite !forallb_app.
  apply andb_true_iff; split; [|apply andb_true_iff; split; [|apply andb_true_iff; split]].
  - destruct (collaborator_addresses p) as [|a l]; [reflexivity|].
    cbn [list_param forallb fst snd]. now rewrite address_list_chars.
  - destruct (reader_addresses p) as [|a l]; [reflexivity|].
    cbn [list_param forallb fst snd]. now rewrite address_list_chars.
  - unfold title_params. destruct (title p) as [t|]; [|reflexivity].
    cbn [forallb fst snd].
    rewrite (all_impl _ _ _ safe_query_char (uri_escaped_safe t)).
    now destruct (exact_title p).
  - unfold flag_params. now destruct (show_deleted p), (show_folders p).
Qed.

(** The value of every parameter of the documents query. *)
Lemma param_values (p : GDataDocumentsQueryPrivate) :
  param_value "writer" (documents_params p)
  = match collaborator_addresses p with
    | [] => None
    | _ :: _ => Some (address_list (collaborator_addresses p))
    end /\
  param_value "reader" (documents_params p)
  = match reader_addresses p with
    | [] => None
    | _ :: _ => Some (address_list (reader_addresses p))
    end /\
  param_value "title" (documents_params p) = option_map uri_escaped (title p) /\
  param_value "title-exact" (documents_params p)
  = match title p with
    | Some _ => if exact_title p then Some "true" else None
    | None => None
    end /\
  param_value "showdeleted" (documents_params p) = Some (bool_text (show_deleted p)) /\
  param_value "showfolders" (documents_params p) = Some (bool_text (show_folders p)).
Proof.
  unfold documents_params, list_param, title_params, flag_params.
  destruct (collaborator_addresses p), (reader_addresses p), (title p), (exact_title p);
    repeat split.
Qed.

End ReadingFacts.

(* ================================================================= *)
(** ** Facts about the bytes written *)

Module Utf8Facts.
Import Str StrFacts GLibFacts QueryFacts ReadingFacts.

Lemma utf8_continuation_take n : forall wc p,
  utf8_continuation n wc p = utf8_continuation n wc (take n p).
Proof.
  induction n as [|n IH]; intros wc p; [reflexivity|].
  destruct p as [|ch p]; [reflexivity|].
  cbn [utf8_continuation take]. cbv zeta.
  destruct (N.land (N_of_ascii ch) 192 =? 128)%N; [apply IH | reflexivity].
Qed.

Lemma utf8_continuation_length n : forall wc p r,
  utf8_continuation n wc p = Some r -> String.length (take n p) = n.
Proof.
  induction n as [|n IH]; intros wc p r; [reflexivity|].
  destruct p as [|ch p]; [discriminate|].
  cbn [utf8_continuation take String.length]. cbv zeta.
  destruct (N.land (N_of_ascii ch) 192 =? 128)%N; [|discriminate].
  intros E. f_equal. exact (IH _ _ _ E).
Qed.

(** The validation of a character looks at the bytes of that character
    only. *)
Lemma validated_take (c : ascii) (rest : string) :
  g_utf8_get_char_validated (String c rest)
  = g_utf8_get_char_validated
      (String c (take (pred (g_utf8_skip (N_of_ascii c))) rest)).
Proof.
  unfold g_utf8_get_char_validated, g_utf8_get_char_extended, g_utf8_skip, utf8_sequence.
  destruct (N_of_ascii c <? 128)%N eqn:E0; [reflexivity|].
  destruct (N_of_ascii c <? 192)%N; [reflexivity|].
  destruct (N_of_ascii c <? 224)%N;
    [cbn [pred]; now rewrite <- utf8_continuation_take|].
  destruct (N_of_ascii c <? 240)%N;
    [cbn [pred]; now rewrite <- utf8_continuation_take|].
  destruct (N_of_ascii c <? 248)%N;
    [cbn [pred]; now rewrite <- utf8_continuation_take|].
  destruct (N_of_ascii c <? 252)%N;
    [cbn [pred]; now rewrite <- utf8_continuation_take|].
  destruct (N_of_ascii c <? 254)%N;
    [cbn [pred]; now rewrite <- utf8_continuation_take|].
  reflexivity.
Qed.

Lemma validated_rest_length (c : ascii) (rest : string) :
  high_byte c = true ->
  gunichar_ok (g_utf8_get_char_validated (String c rest)) = true ->
  String.length (take (pred (g_utf8_skip (N_of_ascii c))) rest)
  = pred (g_utf8_skip (N_of_ascii c)).
Proof.
  unfold high_byte, g_utf8_get_char_validated, g_utf8_get_char_extended, g_utf8_skip,
    utf8_sequence.
  intros Hc.
  destruct (N_of_ascii c <? 128)%N eqn:E0.
  { apply N.ltb_lt in E0. apply N.leb_le in Hc. lia. }
  destruct (N_of_ascii c <? 192)%N; [discriminate|].
  destruct (N_of_ascii c <? 224)%N.
  { destruct (utf8_continuation (pred 2) _ rest) eqn:E; [|discriminate].
    intros _. exact (utf8_continuation_length _ _ _ _ E). }
  destruct (N_of_ascii c <? 240)%N.
  { destruct (utf8_continuation (pred 3) _ rest) eqn:E; [|discriminate].
    intros _. exact (utf8_continuation_length _ _ _ _ E). }
  destruct (N_of_ascii c <? 248)%N.
  { destruct (utf8_continuation (pred 4) _ rest) eqn:E; [|discriminate].
    intros _. exact (utf8_continuation_length _ _ _ _ E). }
  destruct (N_of_ascii c <? 252)%N.
  { destruct (utf8_continuation (pred 5) _ rest) eqn:E; [|discriminate].
    intros _. exact (utf8_continuation_length _ _ _ _ E). }
  destruct (N_of_ascii c <? 254)%N.
  { destruct (utf8_continuation (pred 6) _ rest) eqn:E; [|discriminate].
    intros _. exact (utf8_continuation_length _ _ _ _ E). }
  discriminate.
Qed.

Lemma take_uri_encoder (p : string) : forall k,
  take k (uri_encoder k None true p) = take k p.
Proof.
  induction p as [|c rest IH]; intros k; [now destruct k|].
  destruct k as [|k]; [reflexivity|].
  cbn [uri_encoder take]. now rewrite IH.
Qed.

Lemma utf8_text_take (P : ascii -> bool) (a b : string) : forall k,
  utf8_text P k a = true -> take k (a ++ b) = take k a.
Proof.
  induction a as [|c a IH]; intros k H.
  - destruct k as [|k]; [now destruct b | discriminate H].
  - destruct k as [|k]; [reflexivity|].
    cbn [String.append take]. cbn [utf8_text] in H. now rewrite (IH k H).
Qed.

(** Two texts one after the other make a text. *)
Lemma utf8_text_app (P : ascii -> bool) (a b : string) : forall k,
  utf8_text P k a = true -> utf8_text P 0 b = true -> utf8_text P k (a ++ b) = true.
Proof.
  induction a as [|c a IH]; intros k Ha Hb.
  - destruct k as [|k]; [exact Hb | discriminate Ha].
  - destruct k as [|k].
    + cbn [String.append]. cbn [utf8_text] in Ha |- *.
      destruct (128 <=? N_of_ascii c)%N.
      * apply andb_true_iff in Ha as [Hv Hr].
        rewrite (IH _ Hr Hb), andb_true_r.
        rewrite validated_take, (utf8_text_take P a b _ Hr), <- validated_take.
        exact Hv.
      * apply andb_true_iff in Ha as [Hc Hr].
        now rewrite Hc, (IH _ Hr Hb).
    + cbn [String.append utf8_text] in Ha |- *. now apply IH.
Qed.

Lemma hex_chars_ascii (c : ascii) :
  (128 <=? N_of_ascii (hex (N.shiftr (N_of_ascii c) 4)))%N = false /\
  ascii_query_char (hex (N.shiftr (N_of_ascii c) 4)) = true /\
  (128 <=? N_of_ascii (hex (N.land (N_of_ascii c) 0xF)))%N = false /\
  ascii_query_char (hex (N.land (N_of_ascii c) 0xF)) = true.
Proof. each_byte c; vm_compute; repeat split. Qed.

(** What the encoder writes is such a text. *)
Lemma uri_encoder_utf8_text (p : string) : forall pending,
  String.length (take pending p) = pending ->
  utf8_text ascii_query_char pending (uri_encoder pending None true p) = true.
Proof.
  induction p as [|c rest IH]; intros pending Hp.
  - destruct pending; [reflexivity | discriminate Hp].
  - destruct pending as [|k].
    + cbn [uri_encoder]. cbv zeta.
      destruct (true && (128 <=? N_of_ascii c)%N
                && gunichar_ok (g_utf8_get_char_validated (String c rest))) eqn:E.
      * rewrite !andb_true_iff in E. destruct E as [[_ Hc] Hok].
        cbn [utf8_text]. rewrite Hc.
        rewrite validated_take, take_uri_encoder, <- validated_take, Hok.
        cbn [andb]. apply IH. exact (validated_rest_length c rest Hc Hok).
      * destruct (is_valid c None) eqn:Ev.
        -- cbn [utf8_text]. rewrite (valid_not_high c Ev).
           unfold ascii_query_char at 1. rewrite Ev. cbn [orb andb].
           now apply IH.
        -- destruct (hex_chars_ascii c) as [H1 [H2 [H3 H4]]].
           cbn [utf8_text].
           replace (128 <=? N_of_ascii "%")%N with false by reflexivity.
           replace (ascii_query_char "%") with true by reflexivity.
           rewrite H1, H2, H3, H4. cbn [andb]. now apply IH.
    + cbn [uri_encoder utf8_text]. cbn [take String.length] in Hp.
      injection Hp as Hp. now apply IH.
Qed.

Lemma uri_escaped_utf8_text (s : string) :
  utf8_text ascii_query_char 0 (uri_escaped s) = true.
Proof. unfold uri_escaped. simpl. now apply uri_encoder_utf8_text. Qed.

Lemma next_addresses_utf8_text l :
  utf8_text ascii_query_char 0 (next_addresses l) = true.
Proof.
  induction l as [|a l IH]; [reflexivity|].
  cbn [next_addresses].
  apply (utf8_text_app _ ";"); [reflexivity|].
  apply utf8_text_app; [apply uri_escaped_utf8_text | exact IH].
Qed.

Lemma address_list_utf8_text l :
  utf8_text ascii_query_char 0 (address_list l) = true.
Proof.
  destruct l as [|a l]; [reflexivity|].
  rewrite address_list_cons.
  apply utf8_text_app; [apply uri_escaped_utf8_text | apply next_addresses_utf8_text].
Qed.

Lemma params_text_utf8_text (l : list (string * string)) : forall started,
  forallb (fun kv => utf8_text ascii_query_char 0 (fst kv)
                     && utf8_text ascii_query_char 0 (snd kv)) l = true ->
  utf8_text ascii_query_char 0 (params_text started l) = true.
Proof.
  induction l as [|[k v] l IH]; intros started Hl; [reflexivity|].
  cbn [forallb fst snd] in Hl. rewrite !andb_true_iff in Hl.
  destruct Hl as [[Hk Hv] Hl].
  cbn [params_text].
  apply utf8_text_app; [now destruct started|].
  apply utf8_text_app; [exact Hk|].
  apply (utf8_text_app _ "="); [reflexivity|].
  apply utf8_text_app; [exact Hv | exact (IH true Hl)].
Qed.

Lemma documents_text_utf8_text started (p : GDataDocumentsQueryPrivate) :
  utf8_text ascii_query_char 0 (documents_text started p) = true.
Proof.
  unfold documents_text. apply params_text_utf8_text.
  unfold documents_params. rewrite !forallb_app.
  apply andb_true_iff; split; [|apply andb_true_iff; split; [|apply andb_true_iff; split]].
  - destruct (collaborator_addresses p) as [|a l]; [reflexivity|].
    cbn [list_param forallb fst snd]. now rewrite address_list_utf8_text.
  - destruct (reader_addresses p) as [|a l]; [reflexivity|].
    cbn [list_param forallb fst snd]. now rewrite address_list_utf8_text.
  - unfold title_params. destruct (title p) as [t|]; [|reflexivity].
    cbn [forallb fst snd]. rewrite uri_escaped_utf8_text.
    now destruct (exact_title p).
  - unfold flag_params. now destruct (show_deleted p), (show_folders p).
Qed.

End Utf8Facts.

(* ================================================================= *)
(** ** What the composed text tells, and what it does not *)

Section Reading.

Context {Q : Type} `{GDataQueryClass Q}.
Implicit Types (c : uri_call Q) (q : GDataDocumentsQuery Q).

Import Str StrFacts GLibFacts QueryFacts ReadingFacts.

(** X9.  When the parent only appends, so does the composition: the
    string it was given is the beginning of the string it leaves, with or
    without an entry ID. *)
Theorem composition_appends feed c :
  parent_appends Q ->
  exists t, query_uri (get_query_uri feed c) = query_uri c ++ t.
Proof.
  intros Hp.
  destruct (gdata_query_get_entry_id (parent (self c))) as [id|] eqn:E.
  - rewrite (get_query_uri_entry feed c id E). exact (chain_up_appends feed c Hp).
  - rewrite (get_query_uri_collection feed c E). cbn [with_uri query_uri].
    destruct (chain_up_appends feed (path_step c) Hp) as [t Ht]. rewrite Ht.
    unfold path_step. rewrite E.
    destruct (folder_id (priv (self c))) as [f|]; cbn [with_uri query_uri];
      eexists; rewrite !app_assoc; reflexivity.
Qed.

(** X10.  Without an entry ID, whatever the fields hold, the text written
    after the parent's step is made of unreserved characters, percent
    signs, the delimiters ['?'], ['&'], ['='] and [';'], and well-formed
    multi-byte UTF-8 characters only: every byte from 0x80 on belongs to a
    character that [g_utf8_get_char_validated] accepts, and no space, quote,
    ['#'] or control character is written as it is. *)
Theorem text_characters feed c :
  gdata_query_get_entry_id (parent (self c)) = None ->
  exists text,
    query_uri (get_query_uri feed c) = query_uri (chain_up feed (path_step c)) ++ text /\
    all query_char text = true /\
    utf8_text ascii_query_char 0 text = true.
Proof.
  intros E. rewrite (get_query_uri_collection feed c E). cbn [with_uri query_uri].
  eexists. split; [reflexivity|]. split.
  - apply documents_text_chars.
  - apply Utf8Facts.documents_text_utf8_text.
Qed.

(** X11.  Without an entry ID, the names of the parameters written after
    the parent's step are those of the wire order the query has a value
    for, in that order and once each: [writer] and [reader] for a list that
    is not empty, [title] for a title that is set, [title-exact] for a title
    that is set with [exact_title], and always [showdeleted] and
    [showfolders]. *)
Theorem parameter_names_in_order feed c :
  gdata_query_get_entry_id (parent (self c)) = None ->
  exists text,
    query_uri (get_query_uri feed c) = query_uri (chain_up feed (path_step c)) ++ text /\
    map fst (query_params text) = filter (param_present (priv (self c))) wire_order /\
    NoDup (map fst (query_params text)).
Proof.
  intros E. rewrite (get_query_uri_collection feed c E). cbn [with_uri query_uri].
  eexists. split; [reflexivity|].
  rewrite documents_params_read_back.
  set (p := priv (self c)).
  assert (K : map fst (documents_params p) = filter (param_present p) wire_order).
  { unfold documents_params, list_param, title_params, flag_params, param_present,
      wire_order.
    cbn [filter String.eqb Ascii.eqb Bool.eqb].
    destruct (collaborator_addresses p), (reader_addresses p), (title p), (exact_title p);
      reflexivity. }
  split; [exact K|]. rewrite K.
  apply NoDup_filter. unfold wire_order.
  repeat (constructor; [cbn [In]; intuition discriminate|]). constructor.
Qed.

(** X12.  Without an entry ID, the title can be read back from the text:
    the value of the parameter [title], decoded, is the title stored, and
    there is no such parameter when the title is [NULL]. *)
Theorem title_read_back feed c :
  gdata_query_get_entry_id (parent (self c)) = None ->
  exists text,
    query_uri (get_query_uri feed c) = query_uri (chain_up feed (path_step c)) ++ text /\
    option_map uri_unescaped (param_value "title" (query_params text))
    = title (priv (self c)).
Proof.
  intros E. rewrite (get_query_uri_collection feed c E). cbn [with_uri query_uri].
  eexists. split; [reflexivity|].
  rewrite documents_params_read_back.
  destruct (param_values (priv (self c))) as [_ [_ [T _]]]. rewrite T.
  destruct (title (priv (self c))) as [t|]; [|reflexivity].
  cbn [option_map]. now rewrite uri_escaped_unescaped.
Qed.

(** X13.  Without an entry ID, the addresses of the two lists can be read
    back from the text: the value of [writer], respectively [reader], cut at
    its semicolons and decoded piece by piece, gives the addresses of the
    list in their order; so no address, whatever characters it holds, is
    taken for two or merged with its neighbour. *)
Theorem addresses_read_back feed c :
  gdata_query_get_entry_id (parent (self c)) = None ->
  exists text,
    query_uri (get_query_uri feed c) = query_uri (chain_up feed (path_step c)) ++ text /\
    param_addresses "writer" (query_params text)
    = map address (collaborator_addresses (priv (self c))) /\
    param_addresses "reader" (query_params text)
    = map address (reader_addresses (priv (self c))).
Proof.
  intros E. rewrite (get_query_uri_collection feed c E). cbn [with_uri query_uri].
  eexists. split; [reflexivity|].
  rewrite documents_params_read_back. unfold param_addresses.
  destruct (param_values (priv (self c))) as [W [R _]]. rewrite W, R.
  split.
  - destruct (collaborator_addresses (priv (self c))) as [|a l] eqn:L; [reflexivity|].
    apply address_list_read_back. discriminate.
  - destruct (reader_addresses (priv (self c))) as [|a l] eqn:L; [reflexivity|].
    apply address_list_read_back. discriminate.
Qed.

Lemma string_app_inv_head (a b b' : string) : a ++ b = a ++ b' -> b = b'.
Proof.
  induction a as [|x a IH]; cbn [String.append]; intros E; [exact E|].
  injection E as E. now apply IH.
Qed.

(** The text of the documents query tells its fields apart. *)
Lemma documents_text_determines_fields (started : gboolean)
    (p p' : GDataDocumentsQueryPrivate) :
  documents_text started p = documents_text started p' ->
  title p = title p' /\
  show_deleted p = show_deleted p' /\
  show_folders p = show_folders p' /\
  map address (collaborator_addresses p) = map address (collaborator_addresses p') /\
  map address (reader_addresses p) = map address (reader_addresses p') /\
  (title p <> None -> exact_title p = exact_title p').
Proof.
  intros T. apply (f_equal query_params) in T. unfold documents_text in T.
  rewrite !documents_params_read_back in T.
  destruct (param_values p) as [W [R [Ti [X [D F]]]]].
  destruct (param_values p') as [W' [R' [Ti' [X' [D' F']]]]].
  rewrite T in W, R, Ti, X, D, F.
  rewrite W' in W. rewrite R' in R. rewrite Ti' in Ti. rewrite X' in X.
  rewrite D' in D. rewrite F' in F. clear W' R' Ti' X' D' F' T.
  assert (ET : title p = title p').
  { destruct (title p) as [t|], (title p') as [t'|]; try discriminate Ti; [|reflexivity].
    cbn [option_map] in Ti. injection Ti as Ti.
    apply (f_equal uri_unescaped) in Ti. rewrite !uri_escaped_unescaped in Ti.
    now subst. }
  assert (L : forall l l' : list GDataGDEmailAddress,
             match l' with [] => None | _ :: _ => Some (address_list l') end
             = match l with [] => None | _ :: _ => Some (address_list l) end ->
             map address l = map address l').
  { intros l l' EL. destruct l as [|a l], l' as [|a' l']; try discriminate EL;
      [reflexivity|].
    injection EL as EL.
    rewrite <- (address_list_read_back (a :: l)) by discriminate.
    rewrite <- (address_list_read_back (a' :: l')) by discriminate.
    now rewrite EL. }
  repeat split.
  - exact ET.
  - destruct (show_deleted p), (show_deleted p'); solve [reflexivity | discriminate D].
  - destruct (show_folders p), (show_folders p'); solve [reflexivity | discriminate F].
  - now apply L.
  - now apply L.
  - intros N. rewrite <- ET in X.
    destruct (title p); [|congruence].
    destruct (exact_title p), (exact_title p'); solve [reflexivity | discriminate X].
Qed.

(** X14.  Two queries without an entry ID, with the same parent's part
    and the same folder ID, that compose to the same string have the same
    title, the same two flags, the same addresses in their two lists, and,
    when the title is set, the same [exact_title]: two such queries that
    differ in one of these never compose to the same URI. *)
Theorem text_determines_fields q q' feed uri started :
  gdata_query_get_entry_id (parent q) = None ->
  parent q' = parent q ->
  folder_id (priv q') = folder_id (priv q) ->
  compose_uri q feed uri started = compose_uri q' feed uri started ->
  title (priv q) = title (priv q') /\
  show_deleted (priv q) = show_deleted (priv q') /\
  show_folders (priv q) = show_folders (priv q') /\
  map address (collaborator_addresses (priv q))
  = map address (collaborator_addresses (priv q')) /\
  map address (reader_addresses (priv q))
  = map address (reader_addresses (priv q')) /\
  (title (priv q) <> None -> exact_title (priv q) = exact_title (priv q')).
Proof.
  intros E P F C.
  assert (E' : gdata_query_get_entry_id (parent q') = None) by now rewrite P.
  rewrite (compose_uri_collection q feed uri started E) in C.
  rewrite (compose_uri_collection q' feed uri started E') in C.
  rewrite P, F in C. cbv zeta in C. injection C as C.
  apply string_app_inv_head in C.
  exact (documents_text_determines_fields _ _ _ C).
Qed.

(** X15.  With the title unset, [exact_title] leaves no trace: clearing
    the title with either value of the flag composes to the same string
    and flag. *)
Theorem exact_title_hidden_without_title q (e e' : gboolean) feed uri started :
  compose_uri (gdata_documents_query_set_title q None e) feed uri started
  = compose_uri (gdata_documents_query_set_title q None e') feed uri started.
Proof.
  destruct (gdata_query_get_entry_id (parent q)) as [id|] eqn:E.
  - unfold compose_uri.
    rewrite (get_query_uri_entry feed
               {| self := gdata_documents_query_set_title q None e;
                  query_uri := uri; params_started := started |} id E).
    rewrite (get_query_uri_entry feed
               {| self := gdata_documents_query_set_title q None e';
                  query_uri := uri; params_started := started |} id E).
    unfold chain_up.
    cbn [self query_uri params_started gdata_documents_query_set_title with_priv parent].
    now destruct (parent_class_get_query_uri (parent q) feed uri started).
  - rewrite !compose_uri_collection by exact E. reflexivity.
Qed.

(** X16.  With an entry ID, no field of the documents query leaves a
    trace: two queries with the same parent's part compose to the same
    string and flag, whatever their folder, title, flags and lists. *)
Theorem entry_id_hides_fields q q' id feed uri started :
  gdata_query_get_entry_id (parent q) = Some id ->
  parent q' = parent q ->
  compose_uri q feed uri started = compose_uri q' feed uri started.
Proof.
  intros E P. unfold compose_uri.
  rewrite (get_query_uri_entry feed
             {| self := q; query_uri := uri; params_started := started |} id E).
  assert (E' : gdata_query_get_entry_id (parent q') = Some id) by now rewrite P.
  rewrite (get_query_uri_entry feed
             {| self := q'; query_uri := uri; params_started := started |} id E').
  unfold chain_up. cbn [self query_uri params_started]. rewrite P.
  now destruct (parent_class_get_query_uri (parent q) feed uri started).
Qed.

(** X17.  Without an entry ID, a folder ID made of letters, digits and
    the characters [-], [.], [_] and [~] is written in the path as it is,
    ahead of the parent's step. *)
Theorem unreserved_folder_id_verbatim feed c (f : string) :
  gdata_query_get_entry_id (parent (self c)) = None ->
  folder_id (priv (self c)) = Some f ->
  all (fun ch => is_valid ch None) f = true ->
  let c0 := with_uri c (query_uri c ++ "/folder%3A" ++ f) (params_started c) in
  get_query_uri feed c
  = with_uri c
      (query_uri (chain_up feed c0)
       ++ documents_text (params_started (chain_up feed c0)) (priv (self c)))
      true.
Proof.
  intros E F V c0. rewrite (get_query_uri_collection feed c E).
  assert (P : path_step c = c0).
  { unfold path_step. rewrite E, F. subst c0. f_equal.
    unfold folder_segment, uri_escaped, g_string_append_uri_escaped.
    cbn [String.append]. now rewrite (uri_encoder_unreserved f V). }
  now rewrite P.
Qed.

Lemma params_text_no_question_mark (l : list (string * string)) :
  forallb plain_param l = true ->
  all (fun ch => negb (is_question_mark ch)) (params_text true l) = true.
Proof.
  assert (V : forall s, all value_char s = true ->
                        all (fun ch => negb (is_question_mark ch)) s = true).
  { intros s. apply all_impl. intros ch. unfold value_char, is_separator, is_question_mark.
    now destruct (Ascii.eqb ch "?"). }
  induction l as [|[k v] l IH]; [reflexivity|].
  cbn [forallb]. unfold plain_param at 1. cbn [fst snd].
  rewrite !andb_true_iff. intros [[Hk Hv] Hl].
  cbn [params_text separator]. rewrite !all_app.
  now rewrite (V k (key_is_value k Hk)), (V v Hv), (IH Hl).
Qed.

(** X22.  Without an entry ID, the text written after the parent's step
    begins with ['?'] when the parent left the flag unset and with ['&']
    when it left it set, and has no ['?'] after that: the documents query
    never starts the parameters twice. *)
Theorem question_mark_once feed c :
  gdata_query_get_entry_id (parent (self c)) = None ->
  exists rest,
    query_uri (get_query_uri feed c)
    = query_uri (chain_up feed (path_step c))
      ++ separator (params_started (chain_up feed (path_step c))) ++ rest /\
    all (fun ch => negb (is_question_mark ch)) rest = true.
Proof.
  intros E. rewrite (get_query_uri_collection feed c E). cbn [with_uri query_uri].
  pose proof (documents_params_plain (priv (self c))) as P.
  destruct (documents_params (priv (self c))) as [|[k v] l] eqn:D.
  - unfold documents_params in D. apply (f_equal (@List.length _)) in D.
    rewrite !length_app in D. cbn [flag_params List.length] in D. lia.
  - cbn [params_text]. eexists. split; [reflexivity|].
    cbn [forallb] in P. unfold plain_param at 1 in P. cbn [fst snd] in P.
    rewrite !andb_true_iff in P. destruct P as [[Hk Hv] Hl].
    assert (V : forall s, all value_char s = true ->
                          all (fun ch => negb (is_question_mark ch)) s = true).
    { intros s. apply all_impl. intros ch.
      unfold value_char, is_separator, is_question_mark.
      now destruct (Ascii.eqb ch "?"). }
    rewrite !all_app.
    now rewrite (V k (key_is_value k Hk)), (V v Hv), (params_text_no_question_mark l Hl).
Qed.

End Reading.

(* ================================================================= *)
(** ** The mock proxy resolver *)

Module MockProxyFacts.
Import MockProxy.

(** X18.  A lookup follows the convention of [GError]: it returns [NULL]
    exactly when it sets an error, which it does exactly when it is given a
    cancellable that is cancelled; otherwise it returns one proxy, the same
    for every resolver and every URI. *)
Theorem lookup_result (cancelled : GCancellable -> bool)
    (resolver : GDataMockProxyResolver) (uri : string)
    (cancellable : option GCancellable) :
  let r := gdata_mock_proxy_resolver_lookup cancelled resolver uri cancellable in
  (fst r = None <-> snd r <> None) /\
  (fst r = None <-> exists c, cancellable = Some c /\ cancelled c = true) /\
  (fst r <> None -> r = (Some ["https://127.0.0.1:443"], None)) /\
  forall resolver' uri',
    gdata_mock_proxy_resolver_lookup cancelled resolver' uri' cancellable = r.
Proof.
  unfold gdata_mock_proxy_resolver_lookup, g_cancellable_set_error_if_cancelled.
  destruct cancellable as [c|]; [destruct (cancelled c) eqn:C|]; cbn [fst snd];
    repeat split; try congruence; try discriminate.
  - intros _. now exists c.
  - intros [c' [E C']]. injection E as <-. congruence.
  - intros [c' [E _]]. discriminate E.
Qed.

(** X19.  Finishing, on the resolver it was started on, a lookup started
    asynchronously gives what a lookup made at the time of finishing gives,
    provided the cancellable, if it was cancelled when the lookup started,
    still is. *)
Theorem lookup_finish_of_async (cancelled cancelled' : GCancellable -> bool)
    (resolver : GDataMockProxyResolver) (uri : string)
    (cancellable : option GCancellable) :
  (forall c, cancellable = Some c -> cancelled c = true -> cancelled' c = true) ->
  gdata_mock_proxy_resolver_lookup_finish cancelled' resolver
    (G_TASK (gdata_mock_proxy_resolver_lookup_async cancelled resolver uri cancellable))
  = gdata_mock_proxy_resolver_lookup cancelled' resolver uri cancellable.
Proof.
  intros M.
  unfold gdata_mock_proxy_resolver_lookup_finish, gdata_mock_proxy_resolver_lookup_async,
    gdata_mock_proxy_resolver_lookup, g_task_propagate_pointer, g_task_is_valid,
    g_cancellable_set_error_if_cancelled.
  destruct cancellable as [c|].
  - destruct (cancelled c) eqn:C;
      cbn [source_object task_cancellable result]; rewrite N.eqb_refl.
    + now rewrite (M c eq_refl C).
    + now destruct (cancelled' c).
  - cbn [source_object task_cancellable result]. now rewrite N.eqb_refl.
Qed.

(** X20.  A lookup started on one resolver cannot be finished on another,
    nor can a result that is no task be finished: the function returns
    [NULL] and sets no error. *)
Theorem lookup_finish_refused (cancelled cancelled' : GCancellable -> bool)
    (resolver resolver' : GDataMockProxyResolver) (uri : string)
    (cancellable : option GCancellable) :
  parent_instance resolver' <> parent_instance resolver ->
  gdata_mock_proxy_resolver_lookup_finish cancelled' resolver'
    (G_TASK (gdata_mock_proxy_resolver_lookup_async cancelled resolver uri cancellable))
  = (None, None) /\
  gdata_mock_proxy_resolver_lookup_finish cancelled' resolver' other_result = (None, None).
Proof.
  intros D. split; [|reflexivity].
  unfold gdata_mock_proxy_resolver_lookup_finish, g_task_is_valid,
    gdata_mock_proxy_resolver_lookup_async.
  destruct (gdata_mock_proxy_resolver_lookup cancelled resolver uri cancellable)
    as [proxies error].
  cbn [source_object].
  destruct (N.eqb_spec (parent_instance resolver) (parent_instance resolver'));
    [congruence | reflexivity].
Qed.

End MockProxyFacts.

(* ================================================================= *)
(** ** The further properties on sample queries *)

Lemma property_round_trip_witness :
  let q := Sample.exact BaseQuery.collection in
  let pspec := g_param_spec_string "folder-id" "Folder ID"
                 "Specifies the ID of the folder in which to search."
                 None [G_PARAM_READWRITE; G_PARAM_STATIC_STRINGS] in
  g_object_class_find_property_by_id gdata_documents_query_class_init 4 = Some pspec /\
  g_value_type_compatible pspec (G_TYPE_STRING (Some "abc")) = true /\
  gdata_documents_query_get_property
    (gdata_documents_query_set_property q 4 (G_TYPE_STRING (Some "abc"))) 4
  = Some (G_TYPE_STRING (Some "abc")).
Proof.
  intros q pspec.
  assert (F : g_object_class_find_property_by_id gdata_documents_query_class_init 4
              = Some pspec) by reflexivity.
  assert (T : g_value_type_compatible pspec (G_TYPE_STRING (Some "abc")) = true)
    by reflexivity.
  split; [exact F|]. split; [exact T|].
  exact (property_round_trip q 4 pspec (G_TYPE_STRING (Some "abc")) F T).
Defined.

Lemma new_instance_defaults_witness :
  let pspec := g_param_spec_string "title" "Title"
                 "A title (or title fragment) to be searched for."
                 None [G_PARAM_READWRITE; G_PARAM_STATIC_STRINGS] in
  In (5%N, pspec) gdata_documents_query_class_init /\
  gdata_documents_query_get_property
    (gdata_documents_query_init BaseQuery.collection) 5
  = Some (G_TYPE_STRING None).
Proof.
  intros pspec.
  assert (I : In (5%N, pspec) gdata_documents_query_class_init)
    by (do 4 right; left; reflexivity).
  split; [exact I|].
  exact (new_instance_defaults BaseQuery.collection 5 pspec I).
Defined.

Lemma disjoint_calls_commute_witness :
  let q := Sample.in_folder BaseQuery.collection in
  let a := call_add_reader (Some "a@x.com") in
  let b := call_set_property 5 (G_TYPE_STRING (Some "Annual Report")) in
  disjoint_fields (written a) (written b) = true /\
  perform (perform q a) b = perform (perform q b) a.
Proof.
  intros q a b.
  assert (D : disjoint_fields (written a) (written b) = true) by reflexivity.
  split; [exact D | exact (disjoint_calls_commute q a b D)].
Defined.

Lemma call_frame_witness :
  let q := Sample.full BaseQuery.collection in
  let call := call_set_property 5 (G_TYPE_STRING None) in
  existsb (field_eqb FIELD_folder_id) (written call) = false /\
  folder_id (priv (perform q call)) = Some "abc".
Proof.
  intros q call.
  assert (W : existsb (field_eqb FIELD_folder_id) (written call) = false) by reflexivity.
  split; [exact W|].
  destruct (call_frame q call FIELD_folder_id W) as [K _].
  exact K.
Defined.

Lemma composition_appends_witness :
  let c := Sample.call (Sample.full (BaseQuery.search "tax")) feed false in
  parent_appends BaseQuery.t /\
  exists t, query_uri (get_query_uri feed c) = feed ++ t.
Proof.
  intros c. split; [exact base_query_appends|].
  exact (composition_appends feed c base_query_appends).
Defined.

Lemma text_characters_witness :
  let c := Sample.call (Sample.full BaseQuery.collection) feed false in
  gdata_query_get_entry_id (parent (self c)) = None /\
  exists text,
    query_uri (get_query_uri feed c) = query_uri (chain_up feed (path_step c)) ++ text /\
    Str.all query_char text = true /\
    utf8_text ascii_query_char 0 text = true.
Proof.
  intros c.
  assert (I : gdata_query_get_entry_id (parent (self c)) = None) by reflexivity.
  split; [exact I | exact (text_characters feed c I)].
Defined.

Lemma parameter_names_in_order_witness :
  let c := Sample.call (Sample.full BaseQuery.collection) feed false in
  gdata_query_get_entry_id (parent (self c)) = None /\
  exists text,
    query_uri (get_query_uri feed c) = query_uri (chain_up feed (path_step c)) ++ text /\
    map fst (query_params text) = wire_order /\
    NoDup (map fst (query_params text)).
Proof.
  intros c.
  assert (I : gdata_query_get_entry_id (parent (self c)) = None) by reflexivity.
  split; [exact I | exact (parameter_names_in_order feed c I)].
Defined.

Lemma title_read_back_witness :
  let c := Sample.call (Sample.full BaseQuery.collection) feed false in
  gdata_query_get_entry_id (parent (self c)) = None /\
  exists text,
    query_uri (get_query_uri feed c) = query_uri (chain_up feed (path_step c)) ++ text /\
    option_map uri_unescaped (param_value "title" (query_params text))
    = Some "Annual Report".
Proof.
  intros c.
  assert (I : gdata_query_get_entry_id (parent (self c)) = None) by reflexivity.
  split; [exact I | exact (title_read_back feed c I)].
Defined.

Lemma addresses_read_back_witness :
  let c := Sample.call (Sample.full BaseQuery.collection) feed false in
  gdata_query_get_entry_id (parent (self c)) = None /\
  exists text,
    query_uri (get_query_uri feed c) = query_uri (chain_up feed (path_step c)) ++ text /\
    param_addresses "writer" (query_params text) = ["w@z.org"] /\
    param_addresses "reader" (query_params text) = ["a@x.com"; "b@y.com"].
Proof.
  intros c.
  assert (I : gdata_query_get_entry_id (parent (self c)) = None) by reflexivity.
  split; [exact I | exact (addresses_read_back feed c I)].
Defined.

Lemma text_determines_fields_witness :
  let q := Sample.full BaseQuery.collection in
  let q' := gdata_documents_query_set_show_deleted
              (gdata_documents_query_set_show_deleted q false) true in
  gdata_query_get_entry_id (parent q) = None /\
  parent q' = parent q /\
  folder_id (priv q') = folder_id (priv q) /\
  compose_uri q feed feed false = compose_uri q' feed feed false /\
  title (priv q) = title (priv q') /\
  map address (reader_addresses (priv q)) = map address (reader_addresses (priv q')).
Proof.
  intros q q'.
  assert (I : gdata_query_get_entry_id (parent q) = None) by reflexivity.
  assert (P : parent q' = parent q) by reflexivity.
  assert (F : folder_id (priv q') = folder_id (priv q)) by reflexivity.
  assert (C : compose_uri q feed feed false = compose_uri q' feed feed false)
    by reflexivity.
  destruct (text_determines_fields q q' feed feed false I P F C)
    as [Ti [_ [_ [_ [R _]]]]].
  repeat split; assumption.
Defined.

Lemma entry_id_hides_fields_witness :
  let q := Sample.full (BaseQuery.entry "doc1") in
  let q' := Sample.exact (BaseQuery.entry "doc1") in
  gdata_query_get_entry_id (parent q) = Some "doc1" /\
  parent q' = parent q /\
  compose_uri q feed feed false = compose_uri q' feed feed false.
Proof.
  intros q q'.
  assert (I : gdata_query_get_entry_id (parent q) = Some "doc1") by reflexivity.
  assert (P : parent q' = parent q) by reflexivity.
  split; [exact I|]. split; [exact P|].
  exact (entry_id_hides_fields q q' "doc1" feed feed false I P).
Defined.

Lemma unreserved_folder_id_verbatim_witness :
  let c := Sample.call (Sample.in_folder BaseQuery.collection) feed false in
  gdata_query_get_entry_id (parent (self c)) = None /\
  folder_id (priv (self c)) = Some "abc" /\
  Str.all (fun ch => is_valid ch None) "abc" = true /\
  query_uri (get_query_uri feed c)
  = feed ++ "/folder%3Aabc?showdeleted=false&showfolders=false".
Proof.
  intros c.
  assert (I : gdata_query_get_entry_id (parent (self c)) = None) by reflexivity.
  assert (F : folder_id (priv (self c)) = Some "abc") by reflexivity.
  assert (V : Str.all (fun ch => is_valid ch None) "abc" = true) by reflexivity.
  split; [exact I|]. split; [exact F|]. split; [exact V|].
  rewrite (unreserved_folder_id_verbatim feed c "abc" I F V). reflexivity.
Defined.

Lemma lookup_finish_of_async_witness :
  let resolver := {| MockProxy.parent_instance := 1 |} in
  let before := fun _ : MockProxy.GCancellable => false in
  let after := fun _ : MockProxy.GCancellable => true in
  (forall c, Some 7%N = Some c -> before c = true -> after c = true) /\
  MockProxy.gdata_mock_proxy_resolver_lookup_finish after resolver
    (MockProxy.G_TASK
       (MockProxy.gdata_mock_proxy_resolver_lookup_async before resolver feed (Some 7%N)))
  = (None, Some MockProxy.G_IO_ERROR_CANCELLED).
Proof.
  intros resolver before after.
  assert (M : forall c, Some 7%N = Some c -> before c = true -> after c = true)
    by (intros c _ _; reflexivity).
  split; [exact M|].
  rewrite (MockProxyFacts.lookup_finish_of_async before after resolver feed (Some 7%N) M).
  reflexivity.
Defined.

Lemma lookup_finish_refused_witness :
  let resolver := {| MockProxy.parent_instance := 1 |} in
  let resolver' := {| MockProxy.parent_instance := 2 |} in
  let never := fun _ : MockProxy.GCancellable => false in
  MockProxy.parent_instance resolver' <> MockProxy.parent_instance resolver /\
  MockProxy.gdata_mock_proxy_resolver_lookup_finish never resolver'
    (MockProxy.G_TASK
       (MockProxy.gdata_mock_proxy_resolver_lookup_async never resolver feed None))
  = (None, None).
Proof.
  intros resolver resolver' never.
  assert (D : MockProxy.parent_instance resolver' <> MockProxy.parent_instance resolver)
    by discriminate.
  split; [exact D|].
  destruct (MockProxyFacts.lookup_finish_refused never never resolver resolver' feed None D)
    as [R _].
  exact R.
Defined.

Lemma later_call_overrides_witness :
  let q := Sample.full BaseQuery.collection in
  let a := call_set_property 3 (G_TYPE_BOOLEAN false) in
  let b := call_set_title (Some "Minutes") true in
  appends_address b = false /\
  covered_fields (written a) (written b) = true /\
  perform (perform q a) b = perform q b.
Proof.
  intros q a b.
  assert (A : appends_address b = false) by reflexivity.
  assert (C : covered_fields (written a) (written b) = true) by reflexivity.
  split; [exact A|]. split; [exact C | exact (later_call_overrides q a b A C)].
Defined.

Lemma question_mark_once_witness :
  let c := Sample.call (Sample.full (BaseQuery.search "tax")) feed false in
  gdata_query_get_entry_id (parent (self c)) = None /\
  exists rest,
    query_uri (get_query_uri feed c)
    = query_uri (chain_up feed (path_step c)) ++ "&" ++ rest /\
    Str.all (fun ch => negb (is_question_mark ch)) rest = true.
Proof.
  intros c.
  assert (I : gdata_query_get_entry_id (parent (self c)) = None) by reflexivity.
  split; [exact I | exact (question_mark_once feed c I)].
Defined.

(* ================================================================= *)
(** ** The composition leaves the instance alone *)

Section Purity.

Context {Q : Type}.
Variable entry_id_of : Q -> option string.
Variable parent_in_place : Q -> string -> GString -> gboolean -> Q * (GString * gboolean).

Import Str StrFacts GLibFacts QueryFacts.

Implicit Types (m : uri_call Q).

Let cls : GDataQueryClass Q := class_of_in_place entry_id_of parent_in_place.
#[local] Existing Instance cls.

Lemma bind_snd {A B : Type} (x : run (Q := Q) A) (k : A -> run (Q := Q) B) m :
  snd (bind x k m) = snd (k (fst (x m)) (snd (x m))).
Proof. unfold bind. now destruct (x m). Qed.

Lemma append_next_addresses_in_place_steps l : forall m,
  snd (append_next_addresses_in_place l m) = append_next_addresses l m.
Proof.
  induction l as [|a l IH]; intros m; [reflexivity|].
  cbn [append_next_addresses_in_place append_next_addresses].
  rewrite !bind_snd. cbn [string_append_c string_append_uri_escaped fst snd].
  now rewrite IH.
Qed.

Lemma APPEND_SEP_in_place_steps m : snd (APPEND_SEP_in_place m) = APPEND_SEP m.
Proof. reflexivity. Qed.

(** A group of the function for a list of addresses, step by step. *)
Lemma address_group_in_place (name : string) l m :
  snd (match l with
       | [] => ret tt
       | first :: next =>
           bind APPEND_SEP_in_place (fun _ =>
           bind (string_append name) (fun _ =>
           bind (string_append_uri_escaped (gdata_gd_email_address_get_address first))
             (fun _ => append_next_addresses_in_place next)))
       end m)
  = match l with
    | [] => m
    | first :: next =>
        append_next_addresses next
          (g_append_uri_escaped (gdata_gd_email_address_get_address first)
             (g_append name (APPEND_SEP m)))
    end.
Proof.
  destruct l as [|first next]; [reflexivity|].
  rewrite !bind_snd. rewrite append_next_addresses_in_place_steps. reflexivity.
Qed.

(** The group of the title, step by step. *)
Lemma title_group_in_place (p : GDataDocumentsQueryPrivate) m :
  priv (self m) = p ->
  snd (match title p with
       | Some t =>
           bind APPEND_SEP_in_place (fun _ =>
           bind (string_append "title=") (fun _ =>
           bind (string_append_uri_escaped t) (fun _ =>
           bind (read_priv exact_title) (fun exact =>
           if Bool.eqb exact true then string_append "&title-exact=true" else ret tt))))
       | None => ret tt
       end m)
  = match title p with
    | Some t =>
        let c' := g_append_uri_escaped t (g_append "title=" (APPEND_SEP m)) in
        if Bool.eqb (exact_title p) true then g_append "&title-exact=true" c' else c'
    | None => m
    end.
Proof.
  intros <-. destruct (title (priv (self m))) as [t|]; [|reflexivity].
  rewrite !bind_snd.
  cbn [APPEND_SEP_in_place string_append string_append_uri_escaped read_priv
       read_params_started write_params_started string_append_c bind fst snd self priv].
  now destruct (exact_title (priv (self m))).
Qed.

(** The group of the two flags, step by step. *)
Lemma flag_group_in_place (p : GDataDocumentsQueryPrivate) m :
  priv (self m) = p ->
  snd (bind APPEND_SEP_in_place (fun _ =>
       bind (read_priv show_deleted) (fun deleted =>
       bind (if Bool.eqb deleted true
             then string_append "showdeleted=true"
             else string_append "showdeleted=false") (fun _ =>
       bind (read_priv show_folders) (fun folders =>
       if Bool.eqb folders true
       then string_append "&showfolders=true"
       else string_append "&showfolders=false")))) m)
  = (let c1 := APPEND_SEP m in
     let c2 := if Bool.eqb (show_deleted p) true
               then g_append "showdeleted=true" c1
               else g_append "showdeleted=false" c1 in
     if Bool.eqb (show_folders p) true
     then g_append "&showfolders=true" c2
     else g_append "&showfolders=false" c2).
Proof.
  intros <-. rewrite !bind_snd.
  cbn [APPEND_SEP_in_place string_append read_priv read_params_started
       write_params_started string_append_c bind fst snd self priv].
  destruct (show_deleted (priv (self m)));
    cbn [Bool.eqb string_append fst snd self priv query_uri params_started];
    destruct (show_folders (priv (self m))); reflexivity.
Qed.

Lemma path_in_place m :
  snd (match folder_id (priv (self m)) with
       | Some f => bind (string_append "/folder%3A") (fun _ => string_append_uri_escaped f)
       | None => ret tt
       end m)
  = match folder_id (priv (self m)) with
    | Some f => g_append_uri_escaped f (g_append "/folder%3A" m)
    | None => m
    end.
Proof. now destruct (folder_id (priv (self m))). Qed.

(** What a call leaves in memory: the private data as they were, the
    parent's part as the parent's function left it, and the string and the
    flag of [get_query_uri]. *)
Lemma get_query_uri_in_place_result feed m :
  snd (get_query_uri_in_place entry_id_of parent_in_place feed m)
  = {| self :=
         {| parent :=
              fst (parent_in_place (parent (self m)) feed
                     (query_uri (path_step m)) (params_started (path_step m)));
            priv := priv (self m) |};
       query_uri := query_uri (get_query_uri feed m);
       params_started := params_started (get_query_uri feed m) |}.
Proof.
  destruct (entry_id_of (parent (self m))) as [id|] eqn:E.
  - assert (E' : gdata_query_get_entry_id (parent (self m)) = Some id) by exact E.
    rewrite (get_query_uri_entry feed m id E').
    unfold get_query_uri_in_place.
    rewrite !bind_snd. cbn [read_entry_id read_priv fst snd]. rewrite E.
    cbn [ret fst snd].
    unfold path_step. rewrite E'.
    unfold chain_up_in_place, chain_up. cbn [parent_class_get_query_uri cls class_of_in_place].
    destruct (parent_in_place (parent (self m)) feed (query_uri m) (params_started m))
      as [base [s started]].
    reflexivity.
  - assert (E' : gdata_query_get_entry_id (parent (self m)) = None) by exact E.
    rewrite (get_query_uri_collection feed m E').
    cbn [with_uri query_uri params_started].
    unfold get_query_uri_in_place.
    rewrite !bind_snd. cbn [read_entry_id read_priv fst snd]. rewrite E.
    rewrite path_in_place.
    pose proof (path_step_code m) as P. rewrite E' in P. rewrite P. clear P.
    assert (P0 : priv (self (path_step m)) = priv (self m)).
    { unfold path_step. rewrite E'. now destruct (folder_id (priv (self m))). }
    assert (P1 : parent (self (path_step m)) = parent (self m)).
    { unfold path_step. rewrite E'. now destruct (folder_id (priv (self m))). }
    unfold chain_up_in_place, chain_up.
    cbn [parent_class_get_query_uri cls class_of_in_place].
    rewrite P1, P0.
    destruct (parent_in_place (parent (self m)) feed (query_uri (path_step m))
                (params_started (path_step m))) as [base [s started]].
    cbn [fst snd self priv query_uri params_started].
    rewrite bind_snd; cbn [read_priv fst snd self priv]; cbv beta.
    rewrite bind_snd; cbv beta.
    rewrite address_group_in_place.
    rewrite (address_group "writer=" "writer" _ _ eq_refl).
    cbn [with_uri self priv query_uri params_started].
    rewrite bind_snd; cbn [read_priv fst snd self priv]; cbv beta.
    rewrite bind_snd; cbv beta.
    rewrite address_group_in_place.
    rewrite (address_group "reader=" "reader" _ _ eq_refl).
    cbn [with_uri self priv query_uri params_started].
    rewrite bind_snd; cbn [read_priv fst snd self priv]; cbv beta.
    rewrite bind_snd; cbv beta.
    rewrite (title_group_in_place (priv (self m))) by reflexivity.
    rewrite (title_group (priv (self m))).
    cbn [with_uri self priv query_uri params_started].
    rewrite (flag_group_in_place (priv (self m))) by reflexivity.
    rewrite (flag_group (priv (self m))).
    unfold with_uri. cbn [self priv query_uri params_started]. f_equal.
    unfold documents_params. rewrite !params_text_app, !app_assoc.
    assert (Hn : forall k l, nonempty (list_param k l) = nonempty l) by (now intros k [|]).
    now rewrite !Hn.
Qed.

(** C9.  The code of the composition writes to the [GString] and to the
    flag only: whatever the parent's function does, the private data of the
    instance are after the call what they were before, and the string and
    the flag the call leaves are those of [get_query_uri], a function of
    the fields, of the parent's step, of the string and of the flag given.
    When the parent's function leaves the parent's part alone, the whole
    instance is as it was, and a second composition on it, from the same
    string and flag, ends with the same string and the same flag. *)
Theorem composition_pure feed m :
  let m' := snd (get_query_uri_in_place entry_id_of parent_in_place feed m) in
  let composed :=
    @get_query_uri Q (class_of_in_place entry_id_of parent_in_place) feed m in
  priv (self m') = priv (self m) /\
  query_uri m' = query_uri composed /\
  params_started m' = params_started composed /\
  (parent_reads_only parent_in_place ->
   self m' = self m /\
   forall uri started,
     let m1 := snd (get_query_uri_in_place entry_id_of parent_in_place feed
                      (with_uri m uri started)) in
     let m2 := snd (get_query_uri_in_place entry_id_of parent_in_place feed
                      (with_uri m1 uri started)) in
     self m2 = self m /\
     query_uri m2 = query_uri m1 /\
     params_started m2 = params_started m1).
Proof.
  cbv zeta. rewrite get_query_uri_in_place_result.
  cbn [self priv query_uri params_started].
  split; [reflexivity|]. split; [reflexivity|]. split; [reflexivity|].
  intros R.
  assert (S : forall n : uri_call Q,
            self (snd (get_query_uri_in_place entry_id_of parent_in_place feed n))
            = self n).
  { intros n. rewrite get_query_uri_in_place_result. cbn [self].
    rewrite R. now destruct (self n). }
  split.
  - rewrite R. now destruct (self m).
  - intros uri started.
    assert (W : with_uri (snd (get_query_uri_in_place entry_id_of parent_in_place feed
                                 (with_uri m uri started))) uri started
                = with_uri m uri started).
    { unfold with_uri at 1. rewrite S. reflexivity. }
    rewrite W. split; [|split; reflexivity].
    now rewrite S.
Qed.

End Purity.

Lemma base_query_reads_only : parent_reads_only base_query_in_place.
Proof. intros base feed_uri s started. reflexivity. Qed.

Lemma composition_pure_witness :
  let m := Sample.call (Sample.full (BaseQuery.search "tax")) feed false in
  let m' := snd (get_query_uri_in_place BaseQuery.entry_id base_query_in_place feed m) in
  parent_reads_only base_query_in_place /\
  self m' = self m /\
  query_uri m'
  = feed ++ "/folder%3Aabc?q=tax&writer=w%40z.org&reader=a%40x.com;b%40y.com"
         ++ "&title=Annual%20Report&title-exact=true"
         ++ "&showdeleted=true&showfolders=false".
Proof.
  intros m m'.
  destruct (composition_pure BaseQuery.entry_id base_query_in_place feed m)
    as [_ [_ [_ P]]].
  destruct (P base_query_reads_only) as [S _].
  split; [exact base_query_reads_only|]. split; [exact S | reflexivity].
Defined.

(** With the title set in between, the second composition differs. *)
Example composition_after_set_title :
  let m := Sample.call (Sample.in_folder BaseQuery.collection) feed false in
  let m1 := snd (get_query_uri_in_place BaseQuery.entry_id base_query_in_place feed m) in
  let m2 := snd (gdata_documents_query_set_title_in_place (Some "Minutes") false
                   (with_uri m1 feed false)) in
  let m3 := snd (get_query_uri_in_place BaseQuery.entry_id base_query_in_place feed m2) in
  query_uri m1 = feed ++ "/folder%3Aabc?showdeleted=false&showfolders=false" /\
  query_uri m3
  = feed ++ "/folder%3Aabc?title=Minutes&showdeleted=false&showfolders=false".
Proof. split; reflexivity. Qed.

(** Bytes from 0x80 on: a well-formed character is copied, any other byte
    is escaped, and a text with such a byte as it is is not accepted. *)
Example well_formed_character_copied :
  let e_acute := String (ascii_of_N 0xC3) (String (ascii_of_N 0xA9) "") in
  uri_escaped ("caf" ++ e_acute) = "caf" ++ e_acute /\
  utf8_text ascii_query_char 0 (uri_escaped ("caf" ++ e_acute)) = true.
Proof. split; reflexivity. Qed.

Example ill_formed_bytes_escaped :
  uri_escaped (String (ascii_of_N 0xFF) "") = "%FF" /\
  uri_escaped (String (ascii_of_N 0x80) "") = "%80" /\
  uri_escaped (String (ascii_of_N 0xC0) (String (ascii_of_N 0x80) "")) = "%C0%80" /\
  uri_escaped (String (ascii_of_N 0xC3) "") = "%C3" /\
  utf8_text ascii_query_char 0 (String (ascii_of_N 0xFF) "") = false /\
  utf8_text ascii_query_char 0 (String (ascii_of_N 0x80) "") = false /\
  utf8_text ascii_query_char 0 (String (ascii_of_N 0xC0) (String (ascii_of_N 0x80) ""))
  = false /\
  utf8_text ascii_query_char 0 (String (ascii_of_N 0xC3) "") = false /\
  utf8_text ascii_query_char 0 "a b" = false.
Proof. repeat split. Qed.
